(** * Paginated collection views of the image organizer front end

    A shallow embedding of the client-side state logic of the React pages
    [AllImages], [Unidentified], [PersonDetail] and [People] and of the
    [ImageCard] component that drives their mutation callbacks, followed by
    the [PersonCard] component, the [Upload] page and the navigation of
    [Layout].

    Conventions of the embedding.
    - A component's [useState] cells are the fields of a record [State];
      a state setter called with an updater function ([setImages(prev => ...)])
      is a function [State -> State] taking the updater.
    - Everything a handler does outside its component (toasts, console
      output, HTTP calls, navigation) is appended to a [World] log.
    - An [async] handler is split at its [await]: a [_begin] part that runs
      up to the request, and a [_settle] part that receives how the promise
      settled ([Fulfilled] or [Rejected]) and runs the rest of the
      [try]/[catch]/[finally].
    - Identifiers are JavaScript values compared with [===]/[!==] and tested
      for truthiness, so they are modelled by [JsVal], not by numbers alone.
    - Counts and page numbers are JavaScript numbers holding integers; they
      are modelled by [Z] (exact for the safe-integer range). *)

From Stdlib Require Import ZArith List String Bool Lia.
Import ListNotations.
Local Open Scope Z_scope.

Set Implicit Arguments.

(** ** JavaScript values used as identifiers *)

Inductive JsVal : Type :=
| JUndefined
| JNull
| JNum (n : Z)
| JStr (s : string).

(** [a === b] *)
Definition strict_eq (a b : JsVal) : bool :=
  match a, b with
  | JUndefined, JUndefined => true
  | JNull, JNull => true
  | JNum x, JNum y => x =? y
  | JStr x, JStr y => String.eqb x y
  | _, _ => false
  end.

(** [a !== b] *)
Definition strict_neq (a b : JsVal) : bool := negb (strict_eq a b).

(** The condition of [if (v)]: [undefined], [null], [0] and the empty string
    are falsy. *)
Definition truthy (v : JsVal) : bool :=
  match v with
  | JUndefined | JNull => false
  | JNum n => negb (n =? 0)
  | JStr s => negb (String.eqb s EmptyString)
  end.

(** ** Records held by the views *)

Module Image.
Record t : Type := mk {
    id : JsVal;
    has_face : bool;
    is_identified : bool;
    face_count : Z;
    person_id : JsVal
  }.
End Image.

Module Person.
Record t : Type := mk {
    id : JsVal;
    name : string;
    image_count : Z
  }.

(** [{ ...prev, image_count: c }] *)
Definition with_image_count (c : Z) (p : t) : t :=
    mk (id p) (name p) c.
End Person.

Module Pagination.
Record t : Type := mk {
    page : Z;
    per_page : Z;
    total : Z;
    pages : Z
  }.

(** The value every view passes to [useState]. *)
Definition initial : t := mk 1 30 0 0.

(** [{ ...prev, page: n }] *)
Definition with_page (n : Z) (p : t) : t :=
    mk n (per_page p) (total p) (pages p).

(** [{ ...prev, total: n }] *)
Definition with_total (n : Z) (p : t) : t :=
    mk (page p) (per_page p) n (pages p).

(** The [pagination] object of a response body: the keys it carries. *)
Record patch : Type := mk_patch {
    p_page : option Z;
    p_per_page : option Z;
    p_total : option Z;
    p_pages : option Z
  }.

Definition or_else (o : option Z) (d : Z) : Z :=
    match o with Some v => v | None => d end.

(** [{ ...prev, ...res.pagination }]: keys of the response win. *)
Definition spread (prev : t) (q : patch) : t :=
    mk (or_else (p_page q) (page prev))
       (or_else (p_per_page q) (per_page prev))
       (or_else (p_total q) (total prev))
       (or_else (p_pages q) (pages prev)).
End Pagination.

(** The three values of the filter buttons. *)
Inductive Filter : Type := FAll | FIdentified | FUnidentified.

Definition Filter_eqb (a b : Filter) : bool :=
  match a, b with
  | FAll, FAll | FIdentified, FIdentified | FUnidentified, FUnidentified => true
  | _, _ => false
  end.

(** ** Effects outside the component *)

(** Query parameters of a GET request (axios [params]); a key that the caller
    does not pass is absent. *)
Record Params : Type := mkParams {
  q_page : option Z;
  q_per_page : option Z;
  q_filter : option Filter;
  q_search : option string
}.

Definition no_params : Params := mkParams None None None None.

Inductive ApiCall : Type :=
| ImagesGetAll (params : Params)              (* imagesApi.getAll(params) *)
| PeopleGetAll (params : Params)              (* peopleApi.getAll(params) *)
| PeopleGetImages (id : JsVal) (params : Params) (* peopleApi.getImages(id, params) *)
| ImagesDelete (id : JsVal)                   (* imagesApi.delete(id) *)
| ImagesAssign (id personId : JsVal).         (* imagesApi.assign(id, personId) *)

Inductive Toast : Type :=
| ToastSuccess (msg : string)
| ToastError (msg : string).

Record World : Type := mkWorld {
  toasts : list Toast;      (* react-hot-toast notifications, oldest first *)
  console : list string;    (* console.error lines *)
  calls : list ApiCall;     (* HTTP calls issued, oldest first *)
  navigated : list string   (* navigate(path) *)
}.

Definition empty_world : World := mkWorld [] [] [] [].

Definition toast (t : Toast) (w : World) : World :=
  mkWorld (toasts w ++ [t]) (console w) (calls w) (navigated w).

Definition console_error (line : string) (w : World) : World :=
  mkWorld (toasts w) (console w ++ [line]) (calls w) (navigated w).

Definition request (cs : list ApiCall) (w : World) : World :=
  mkWorld (toasts w) (console w) (calls w ++ cs) (navigated w).

Definition navigate (path : string) (w : World) : World :=
  mkWorld (toasts w) (console w) (calls w) (navigated w ++ [path]).

(** How an awaited promise settles. A rejection carries the [message] of the
    [Error] built by the response interceptor. *)
Inductive Settled (A : Type) : Type :=
| Fulfilled (v : A)
| Rejected (message : string).
Arguments Fulfilled {A} v.
Arguments Rejected {A} message.

(** Response bodies. *)
Record ImagesRes : Type := mkImagesRes {
  ir_data : list Image.t;
  ir_pagination : Pagination.patch
}.

Record PeopleRes : Type := mkPeopleRes {
  pr_data : list Person.t
}.

Record PersonImagesRes : Type := mkPersonImagesRes {
  pir_person : option Person.t;
  pir_data : list Image.t;
  pir_pagination : Pagination.patch
}.

(** [prev.filter((img) => img.id !== imageId)] *)
Definition without (imageId : JsVal) (prev : list Image.t) : list Image.t :=
  filter (fun img => strict_neq (Image.id img) imageId) prev.

(** ** pages/AllImages *)

Module AllImages.
Record State : Type := mk {
    images : list Image.t;
    people : list Person.t;
    loading : bool;
    pagination : Pagination.t;
    filter : Filter
  }.

Definition initial : State := mk [] [] true Pagination.initial FAll.

Definition setImages (f : list Image.t -> list Image.t) (st : State) : State :=
    mk (f (images st)) (people st) (loading st) (pagination st) (filter st).
Definition setPeople (f : list Person.t -> list Person.t) (st : State) : State :=
    mk (images st) (f (people st)) (loading st) (pagination st) (filter st).
Definition setLoading (b : bool) (st : State) : State :=
    mk (images st) (people st) b (pagination st) (filter st).
Definition setPagination (f : Pagination.t -> Pagination.t) (st : State) : State :=
    mk (images st) (people st) (loading st) (f (pagination st)) (filter st).
Definition setFilter (v : Filter) (st : State) : State :=
    mk (images st) (people st) (loading st) (pagination st) v.

(** [fetchData] up to [await Promise.all([...])]. Every render creates its
    own [fetchData], which reads [pagination.page], [pagination.per_page] and
    [filter] of that render, [render]; its [setLoading(true)] acts on the
    state held when it runs, [st]. *)
Definition fetchData_of (render st : State) (w : World) : State * World :=
    (setLoading true st,
     request [ImagesGetAll (mkParams (Some (Pagination.page (pagination render)))
                                     (Some (Pagination.per_page (pagination render)))
                                     (Some (filter render)) None);
              PeopleGetAll no_params] w).

(** [fetchData] as the effect calls it: the effect of a render runs that
    render's [fetchData] on the state the render shows. *)
Definition fetchData_begin (st : State) (w : World) : State * World :=
    fetchData_of st st w.

(** [fetchData] from the settlement of [Promise.all] on. *)
Definition fetchData_settle (r : Settled (ImagesRes * PeopleRes))
      (st : State) (w : World) : State * World :=
    match r with
    | Fulfilled (imagesRes, peopleRes) =>
        let st1 := setImages (fun _ => ir_data imagesRes) st in
        let st2 := setPeople (fun _ => pr_data peopleRes) st1 in
        let st3 := setPagination
                     (fun prev => Pagination.spread prev (ir_pagination imagesRes)) st2 in
        (setLoading false st3, w)
    | Rejected e =>
        (setLoading false st,
         console_error (String.append "Failed to fetch images: " e) w)
    end.

Definition handleDelete (imageId : JsVal) (st : State) : State :=
    let st1 := setImages (without imageId) st in
    setPagination
      (fun prev => Pagination.with_total (Pagination.total prev - 1) prev) st1.

(** [handleAssign = () => { fetchData(); }] of the render [render]: both
    arguments are ignored, and the [fetchData] called is the one of the
    render that handed this [handleAssign] to the card as [onAssign]. A card
    keeps the [onAssign] it had when its own handler was called, so [render]
    is the page as it was shown when the assignment was requested, and [st]
    the state held when the server has answered. *)
Definition handleAssign (render : State) (imageId personId : JsVal)
    (st : State) (w : World) : State * World :=
    fetchData_of render st w.

(** [onClick] of a filter button. *)
Definition onFilterClick (value : Filter) (st : State) : State :=
    setPagination (Pagination.with_page 1) (setFilter value st).

(** [onClick] of the Previous and Next buttons. *)
Definition onPrevious (st : State) : State :=
    setPagination (fun prev => Pagination.with_page (Pagination.page prev - 1) prev) st.
Definition onNext (st : State) : State :=
    setPagination (fun prev => Pagination.with_page (Pagination.page prev + 1) prev) st.

(** [useEffect(() => { fetchData(); }, [pagination.page, filter])] after the
      render that follows an event: the effect runs when a dependency differs
      from its value at the previous render. *)
Definition deps_changed (prev next : State) : bool :=
    negb (Pagination.page (pagination prev) =? Pagination.page (pagination next))
    || negb (Filter_eqb (filter prev) (filter next)).

Definition useEffect (prev next : State) (w : World) : State * World :=
    if deps_changed prev next then fetchData_begin next w else (next, w).
End AllImages.

(** ** pages/Unidentified *)

Module Unidentified.
Record State : Type := mk {
    images : list Image.t;
    people : list Person.t;
    loading : bool;
    pagination : Pagination.t
  }.

Definition initial : State := mk [] [] true Pagination.initial.

Definition setImages (f : list Image.t -> list Image.t) (st : State) : State :=
    mk (f (images st)) (people st) (loading st) (pagination st).
Definition setPeople (f : list Person.t -> list Person.t) (st : State) : State :=
    mk (images st) (f (people st)) (loading st) (pagination st).
Definition setLoading (b : bool) (st : State) : State :=
    mk (images st) (people st) b (pagination st).
Definition setPagination (f : Pagination.t -> Pagination.t) (st : State) : State :=
    mk (images st) (people st) (loading st) (f (pagination st)).

Definition fetchData_begin (st : State) (w : World) : State * World :=
    (setLoading true st,
     request [ImagesGetAll (mkParams (Some (Pagination.page (pagination st)))
                                     (Some (Pagination.per_page (pagination st)))
                                     (Some FUnidentified) None);
              PeopleGetAll no_params] w).

Definition fetchData_settle (r : Settled (ImagesRes * PeopleRes))
      (st : State) (w : World) : State * World :=
    match r with
    | Fulfilled (imagesRes, peopleRes) =>
        let st1 := setImages (fun _ => ir_data imagesRes) st in
        let st2 := setPeople (fun _ => pr_data peopleRes) st1 in
        let st3 := setPagination
                     (fun prev => Pagination.spread prev (ir_pagination imagesRes)) st2 in
        (setLoading false st3, w)
    | Rejected e =>
        (setLoading false st,
         console_error (String.append "Failed to fetch images: " e) w)
    end.

Definition handleDelete (imageId : JsVal) (st : State) : State :=
    let st1 := setImages (without imageId) st in
    setPagination
      (fun prev => Pagination.with_total (Pagination.total prev - 1) prev) st1.

Definition handleAssign (imageId personId : JsVal) (st : State) : State :=
    if truthy personId then
      (* Remove from unidentified list when assigned *)
      let st1 := setImages (without imageId) st in
      setPagination
        (fun prev => Pagination.with_total (Pagination.total prev - 1) prev) st1
    else st.

(** [useEffect(() => { fetchData(); }, [pagination.page])] *)
Definition deps_changed (prev next : State) : bool :=
    negb (Pagination.page (pagination prev) =? Pagination.page (pagination next)).

Definition useEffect (prev next : State) (w : World) : State * World :=
    if deps_changed prev next then fetchData_begin next w else (next, w).
End Unidentified.

(** ** pages/PersonDetail *)

Module PersonDetail.
(** The cells of the edit and delete dialogs ([isEditing], [isDeleting],
      [editName], [deleteImages]) are read and written only by the dialogs and
      are left out. [person] starts as [null]. *)
Record State : Type := mk {
    person : option Person.t;
    images : list Image.t;
    allPeople : list Person.t;
    loading : bool;
    pagination : Pagination.t
  }.

Definition initial : State := mk None [] [] true Pagination.initial.

Definition setPerson (f : option Person.t -> option Person.t) (st : State) : State :=
    mk (f (person st)) (images st) (allPeople st) (loading st) (pagination st).
Definition setImages (f : list Image.t -> list Image.t) (st : State) : State :=
    mk (person st) (f (images st)) (allPeople st) (loading st) (pagination st).
Definition setAllPeople (f : list Person.t -> list Person.t) (st : State) : State :=
    mk (person st) (images st) (f (allPeople st)) (loading st) (pagination st).
Definition setLoading (b : bool) (st : State) : State :=
    mk (person st) (images st) (allPeople st) b (pagination st).
Definition setPagination (f : Pagination.t -> Pagination.t) (st : State) : State :=
    mk (person st) (images st) (allPeople st) (loading st) (f (pagination st)).

(** [setPerson((prev) => ({ ...prev, image_count: prev.image_count - 1 }))]:
      reading [prev.image_count] of a [null] person throws, which is the
      result [None]. *)
Definition decrement_image_count (st : State) : option State :=
    match person st with
    | Some p =>
        Some (setPerson
                (fun _ => Some (Person.with_image_count (Person.image_count p - 1) p)) st)
    | None => None
    end.

Section Route.
(** [const { id } = useParams()] *)
Variable id : JsVal.

Definition fetchData_begin (st : State) (w : World) : State * World :=
      (setLoading true st,
       request [PeopleGetImages id
                  (mkParams (Some (Pagination.page (pagination st)))
                            (Some (Pagination.per_page (pagination st))) None None);
                PeopleGetAll no_params] w).

Definition fetchData_settle (r : Settled (PersonImagesRes * PeopleRes))
        (st : State) (w : World) : State * World :=
      match r with
      | Fulfilled (imagesRes, peopleRes) =>
          let st1 := setPerson (fun _ => pir_person imagesRes) st in
          let st2 := setImages (fun _ => pir_data imagesRes) st1 in
          let st3 := setAllPeople (fun _ => pr_data peopleRes) st2 in
          let st4 := setPagination
                       (fun prev => Pagination.spread prev (pir_pagination imagesRes)) st3 in
          (setLoading false st4, w)
      | Rejected _ =>
          (setLoading false st,
           navigate "/people" (toast (ToastError "Failed to load person") w))
      end.

Definition handleImageDelete (imageId : JsVal) (st : State) : option State :=
      let st1 := setImages (without imageId) st in
      let st2 := setPagination
                   (fun prev => Pagination.with_total (Pagination.total prev - 1) prev) st1 in
      decrement_image_count st2.

Definition handleImageAssign (imageId personId : JsVal) (st : State) : option State :=
      if strict_neq personId id then
        (* Image was reassigned to another person *)
        let st1 := setImages (without imageId) st in
        let st2 := setPagination
                     (fun prev => Pagination.with_total (Pagination.total prev - 1) prev) st1 in
        decrement_image_count st2
      else Some st.

(** [useEffect(() => { fetchData(); }, [id, pagination.page])]; within one
        mounted route the parameter [id] is the same at both renders. *)
Definition deps_changed (prev next : State) : bool :=
      negb (strict_eq id id)
      || negb (Pagination.page (pagination prev) =? Pagination.page (pagination next)).

Definition useEffect (prev next : State) (w : World) : State * World :=
      if deps_changed prev next then fetchData_begin next w else (next, w).
End Route.
End PersonDetail.

(** ** pages/People *)

Module People.
(** The cells of the create dialog ([isCreating], [newName]) are left out. *)
Record State : Type := mk {
    people : list Person.t;
    loading : bool;
    search : string
  }.

Definition initial : State := mk [] true EmptyString.

Definition setPeople (f : list Person.t -> list Person.t) (st : State) : State :=
    mk (f (people st)) (loading st) (search st).
Definition setLoading (b : bool) (st : State) : State :=
    mk (people st) b (search st).
Definition setSearch (v : string) (st : State) : State :=
    mk (people st) (loading st) v.

(** [peopleApi.getAll({ search })]: the only key passed is [search]. *)
Definition fetchPeople_begin (st : State) (w : World) : State * World :=
    (st, request [PeopleGetAll (mkParams None None None (Some (search st)))] w).

Definition fetchPeople_settle (r : Settled PeopleRes) (st : State) (w : World)
    : State * World :=
    match r with
    | Fulfilled result =>
        (setLoading false (setPeople (fun _ => pr_data result) st), w)
    | Rejected _ =>
        (setLoading false st, toast (ToastError "Failed to fetch people") w)
    end.

(** [onChange={(e) => setSearch(e.target.value)}] *)
Definition onSearchChange (value : string) (st : State) : State :=
    setSearch value st.

Definition handleDelete (personId : JsVal) (st : State) : State :=
    setPeople (List.filter (fun p => strict_neq (Person.id p) personId)) st.

(** [useEffect(() => { fetchPeople(); }, [search])] *)
Definition deps_changed (prev next : State) : bool :=
    negb (String.eqb (search prev) (search next)).

Definition useEffect (prev next : State) (w : World) : State * World :=
    if deps_changed prev next then fetchPeople_begin next w else (next, w).
End People.

(** ** components/ImageCard *)

Module ImageCard.
(** The card's own [useState] cells; [isReprocessing] belongs to the
      reprocess button and is carried along unchanged. *)
Record Local : Type := mk {
    isDeleting : bool;
    isAssigning : bool;
    isReprocessing : bool;
    showDeleteModal : bool
  }.

Definition initial : Local := mk false false false false.

Definition setIsDeleting (b : bool) (c : Local) : Local :=
    mk b (isAssigning c) (isReprocessing c) (showDeleteModal c).
Definition setIsAssigning (b : bool) (c : Local) : Local :=
    mk (isDeleting c) b (isReprocessing c) (showDeleteModal c).
Definition setShowDeleteModal (b : bool) (c : Local) : Local :=
    mk (isDeleting c) (isAssigning c) (isReprocessing c) b.

Section Card.
(** The state of the page that renders the card, and the props
        [image], [onDelete] and [onAssign]; a callback prop may be absent
        ([if (onDelete) ...]). *)
Variable P : Type.
Variable image : Image.t.
Variable onDelete : option (JsVal -> P -> World -> P * World).
Variable onAssign : option (JsVal -> JsVal -> P -> World -> P * World).

Definition handleDelete_begin (c : Local) (w : World) : Local * World :=
      (setIsDeleting true c, request [ImagesDelete (Image.id image)] w).

Definition handleDelete_settle (r : Settled unit) (c : Local) (p : P) (w : World)
      : Local * P * World :=
      match r with
      | Fulfilled _ =>
          let w1 := toast (ToastSuccess "Image deleted") w in
          let c1 := setShowDeleteModal false c in
          let (p2, w2) := match onDelete with
                          | Some f => f (Image.id image) p w1
                          | None => (p, w1)
                          end in
          (setIsDeleting false c1, p2, w2)
      | Rejected message =>
          (setIsDeleting false c, p, toast (ToastError message) w)
      end.

Definition handleDelete (r : Settled unit) (c : Local) (p : P) (w : World)
      : Local * P * World :=
      let (c1, w1) := handleDelete_begin c w in
      handleDelete_settle r c1 p w1.

Definition handleAssign_begin (personId : JsVal) (c : Local) (w : World)
      : Local * World :=
      (setIsAssigning true c, request [ImagesAssign (Image.id image) personId] w).

Definition handleAssign_settle (personId : JsVal) (r : Settled unit)
        (c : Local) (p : P) (w : World) : Local * P * World :=
      match r with
      | Fulfilled _ =>
          let w1 := toast (ToastSuccess (if truthy personId
                                         then "Image assigned"
                                         else "Image unassigned")) w in
          let (p2, w2) := match onAssign with
                          | Some f => f (Image.id image) personId p w1
                          | None => (p, w1)
                          end in
          (setIsAssigning false c, p2, w2)
      | Rejected message =>
          (setIsAssigning false c, p, toast (ToastError message) w)
      end.

Definition handleAssign (personId : JsVal) (r : Settled unit)
        (c : Local) (p : P) (w : World) : Local * P * World :=
      let (c1, w1) := handleAssign_begin personId c w in
      handleAssign_settle personId r c1 p w1.
End Card.
End ImageCard.

(** ** The callback props each page passes to its cards *)

Definition AllImages_onDelete (imageId : JsVal) (st : AllImages.State) (w : World)
  : AllImages.State * World :=
  (AllImages.handleDelete imageId st, w).

Definition AllImages_onAssign (render : AllImages.State) (imageId personId : JsVal)
    (st : AllImages.State) (w : World) : AllImages.State * World :=
  AllImages.handleAssign render imageId personId st w.

Definition Unidentified_onDelete (imageId : JsVal) (st : Unidentified.State)
    (w : World) : Unidentified.State * World :=
  (Unidentified.handleDelete imageId st, w).

Definition Unidentified_onAssign (imageId personId : JsVal)
    (st : Unidentified.State) (w : World) : Unidentified.State * World :=
  (Unidentified.handleAssign imageId personId st, w).

(** A sequence of [removeItem] calls, first id first. *)
Definition AllImages_removeAll (ids : list JsVal) (st : AllImages.State)
  : AllImages.State :=
  fold_left (fun s i => AllImages.handleDelete i s) ids st.

Definition Unidentified_removeAll (ids : list JsVal) (st : Unidentified.State)
  : Unidentified.State :=
  fold_left (fun s i => Unidentified.handleDelete i s) ids st.

(** [id] is none of [ids]. *)
Definition kept (ids : list JsVal) (img : Image.t) : bool :=
  negb (existsb (strict_eq (Image.id img)) ids).

Definition PersonDetail_onDelete (imageId : JsVal)
    (st : option PersonDetail.State) (w : World)
  : option PersonDetail.State * World :=
  (match st with
   | Some s => PersonDetail.handleImageDelete imageId s
   | None => None
   end, w).

Definition PersonDetail_onAssign (id imageId personId : JsVal)
    (st : option PersonDetail.State) (w : World)
  : option PersonDetail.State * World :=
  (match st with
   | Some s => PersonDetail.handleImageAssign id imageId personId s
   | None => None
   end, w).

(** The ids of the held images, in order. *)
Definition ids_of (l : list Image.t) : list JsVal := map Image.id l.

(** The [page] parameter a collection request carries, if any. *)
Definition page_of_call (c : ApiCall) : option Z :=
  match c with
  | ImagesGetAll ps | PeopleGetAll ps | PeopleGetImages _ ps => q_page ps
  | ImagesDelete _ | ImagesAssign _ _ => None
  end.

(** ** Sample data used by the examples *)

Definition img (n : Z) : Image.t := Image.mk (JNum n) true false 1 JNull.

Definition five_unidentified : Unidentified.State :=
  Unidentified.mk [img 1; img 2; img 3; img 4; img 5] [] false
                  (Pagination.mk 1 30 5 1).

Definition two_images : AllImages.State :=
  AllImages.mk [img 1; img 2] [] false (Pagination.mk 1 30 2 1) FAll.

Definition person_P : Person.t := Person.mk (JStr "4") "P" 10.

Definition detail_of_P : PersonDetail.State :=
  PersonDetail.mk (Some person_P) [img 1; img 2; img 3] [person_P] false
                  (Pagination.mk 1 30 10 1).

Definition people_searching (term : string) : People.State :=
  People.mk [person_P] false term.

(** ** Pagination controls of the three image views *)

Module Pager.
Inductive Button : Type := Previous | Next.

(** [{pagination.pages > 1 && ( ... )}]: the two buttons are rendered. *)
Definition rendered (p : Pagination.t) : bool := 1 <? Pagination.pages p.

(** [disabled={pagination.page === 1}] on Previous and
    [disabled={pagination.page === pagination.pages}] on Next. *)
Definition disabled (b : Button) (p : Pagination.t) : bool :=
  match b with
  | Previous => Pagination.page p =? 1
  | Next => Pagination.page p =? Pagination.pages p
  end.

(** A click reaches [onClick] only on a rendered, enabled button. *)
Definition clickable (b : Button) (p : Pagination.t) : bool :=
  rendered p && negb (disabled b p).

(** [(prev) => ({ ...prev, page: prev.page - 1 })] and its [+ 1] twin. *)
Definition turn (b : Button) (prev : Pagination.t) : Pagination.t :=
  match b with
  | Previous => Pagination.with_page (Pagination.page prev - 1) prev
  | Next => Pagination.with_page (Pagination.page prev + 1) prev
  end.
End Pager.

(** The page number lies between 1 and [pages]. *)
Definition in_range (p : Pagination.t) : Prop :=
  1 <= Pagination.page p <= Pagination.pages p.

Definition AllImages_click (b : Pager.Button) (st : AllImages.State)
  : AllImages.State :=
  if Pager.clickable b (AllImages.pagination st) then
    match b with
    | Pager.Previous => AllImages.onPrevious st
    | Pager.Next => AllImages.onNext st
    end
  else st.

Definition Unidentified_click (b : Pager.Button) (st : Unidentified.State)
  : Unidentified.State :=
  if Pager.clickable b (Unidentified.pagination st)
  then Unidentified.setPagination (Pager.turn b) st
  else st.

Definition PersonDetail_click (b : Pager.Button) (st : PersonDetail.State)
  : PersonDetail.State :=
  if Pager.clickable b (PersonDetail.pagination st)
  then PersonDetail.setPagination (Pager.turn b) st
  else st.

(** A user clicking through the pages, first click first, with the effect
    run after each click. *)
Definition AllImages_browse (bs : list Pager.Button) (st : AllImages.State)
    (w : World) : AllImages.State * World :=
  fold_left (fun sw b => AllImages.useEffect (fst sw) (AllImages_click b (fst sw)) (snd sw))
            bs (st, w).

(** The response's [pagination] object carries all four keys. *)
Definition carries_all_keys (q : Pagination.patch) : bool :=
  match Pagination.p_page q, Pagination.p_per_page q,
        Pagination.p_total q, Pagination.p_pages q with
  | Some _, Some _, Some _, Some _ => true
  | _, _, _, _ => false
  end.

(** ** Requests and resources of the remaining handlers *)

Inductive MutationCall : Type :=
| PeopleCreate (name : string)                     (* peopleApi.create({ name }) *)
| PeopleUpdate (id : JsVal) (name : string)        (* peopleApi.update(id, { name }) *)
| PeopleDelete (id : JsVal) (deleteImages : bool)  (* peopleApi.delete(id, deleteImages) *)
| ImagesReprocess (id : JsVal)                     (* imagesApi.reprocess(id) *)
| ImagesUpload (filenames : list string).          (* imagesApi.upload(files, ...) *)

(** The [World] together with the mutation requests sent and the object
    URLs handed to [URL.revokeObjectURL]. *)
Record Env : Type := mkEnv {
  world : World;
  sent : list MutationCall;
  revoked : list string
}.

Definition empty_env : Env := mkEnv empty_world [] [].

Definition env_world (f : World -> World) (e : Env) : Env :=
  mkEnv (f (world e)) (sent e) (revoked e).

Definition env_toast (t : Toast) (e : Env) : Env := env_world (toast t) e.

Definition env_send (c : MutationCall) (e : Env) : Env :=
  mkEnv (world e) (sent e ++ [c]) (revoked e).

Definition env_revoke (url : string) (e : Env) : Env :=
  mkEnv (world e) (sent e) (revoked e ++ [url]).

(** [!s] for a string [s]: only the empty string is falsy. *)
Definition is_empty (s : string) : bool := String.eqb s EmptyString.

(** ** pages/People: the create dialog, updates and the page as a whole *)

(** The ids of the held people, in order. *)
Definition person_ids (l : list Person.t) : list JsVal := map Person.id l.

(** [prev.map((p) => (p.id === updatedPerson.id ? updatedPerson : p))] *)
Definition replace_person (updatedPerson : Person.t) (prev : list Person.t)
  : list Person.t :=
  map (fun p => if strict_eq (Person.id p) (Person.id updatedPerson)
                then updatedPerson else p) prev.

Definition People_handleUpdate (updatedPerson : Person.t) (st : People.State)
  : People.State :=
  People.setPeople (replace_person updatedPerson) st.

Module PeopleCreate.
(** The two cells of the create dialog. *)
Record Dialog : Type := mk {
    isCreating : bool;
    newName : string
  }.

Definition initial : Dialog := mk false EmptyString.

Definition setIsCreating (b : bool) (d : Dialog) : Dialog := mk b (newName d).
Definition setNewName (v : string) (d : Dialog) : Dialog := mk (isCreating d) v.

Section Trim.
(** [String.prototype.trim] *)
Variable trim : string -> string.

(** [handleCreate] up to its [await]; the boolean tells whether the request
    was sent ([false] is the early [return]). *)
Definition handleCreate_begin (d : Dialog) (e : Env) : bool * Env :=
  if is_empty (trim (newName d))
  then (false, env_toast (ToastError "Please enter a name") e)
  else (true, env_send (PeopleCreate (trim (newName d))) e).

(** [handleCreate] from the settlement on; the fulfilled value is
    [result.data]. *)
Definition handleCreate_settle (r : Settled Person.t) (d : Dialog)
    (st : People.State) (e : Env) : Dialog * People.State * Env :=
  match r with
  | Fulfilled data =>
      let e1 := env_toast (ToastSuccess "Person created") e in
      let st1 := People.setPeople (fun prev => data :: prev) st in
      (setIsCreating false (setNewName EmptyString d), st1, e1)
  | Rejected message => (d, st, env_toast (ToastError message) e)
  end.

Definition handleCreate (r : Settled Person.t) (d : Dialog)
    (st : People.State) (e : Env) : Dialog * People.State * Env :=
  let (issued, e1) := handleCreate_begin d e in
  if issued then handleCreate_settle r d st e1 else (d, st, e1).

(** What can happen to the mounted page. *)
Inductive Event : Type :=
| Typed (value : string)            (* the search box changes, then the effect *)
| Loaded (r : Settled PeopleRes)    (* a [fetchPeople] call settles *)
| OpenCreate                        (* an Add Person button *)
| CloseCreate                       (* the dialog's Cancel or close *)
| Named (value : string)            (* the dialog's input changes *)
| Create (r : Settled Person.t)     (* the dialog's Add Person button *)
| Deleted (personId : JsVal)        (* a card calls [onDelete] *)
| Updated (updatedPerson : Person.t). (* a card calls [onUpdate] *)

Definition step (ev : Event) (page : Dialog * People.State * Env)
  : Dialog * People.State * Env :=
  let '(d, st, e) := page in
  match ev with
  | Typed value =>
      let (st1, w1) := People.useEffect st (People.onSearchChange value st) (world e) in
      (d, st1, env_world (fun _ => w1) e)
  | Loaded r =>
      let (st1, w1) := People.fetchPeople_settle r st (world e) in
      (d, st1, env_world (fun _ => w1) e)
  | OpenCreate => (setIsCreating true d, st, e)
  | CloseCreate => (setNewName EmptyString (setIsCreating false d), st, e)
  | Named value => (setNewName value d, st, e)
  | Create r => handleCreate r d st e
  | Deleted personId => (d, People.handleDelete personId st, e)
  | Updated updatedPerson => (d, People_handleUpdate updatedPerson st, e)
  end.

Definition run (evs : list Event) (page : Dialog * People.State * Env)
  : Dialog * People.State * Env :=
  fold_left (fun pg ev => step ev pg) evs page.
End Trim.

Definition is_Loaded (ev : Event) : bool :=
  match ev with Loaded _ => true | _ => false end.
End PeopleCreate.

(** ** components/PersonCard *)

Module PersonCard.
Record Local : Type := mk {
    isEditing : bool;
    isDeleting : bool;
    editName : string;
    deleteImages : bool
  }.

(** [editName] starts as [person.name]. *)
Definition initial (person : Person.t) : Local :=
  mk false false (Person.name person) false.

Definition setIsEditing (b : bool) (c : Local) : Local :=
  mk b (isDeleting c) (editName c) (deleteImages c).
Definition setIsDeleting (b : bool) (c : Local) : Local :=
  mk (isEditing c) b (editName c) (deleteImages c).

Section Card.
Variable trim : string -> string.
Variable P : Type.
Variable person : Person.t.
Variable onDelete : option (JsVal -> P -> Env -> P * Env).
Variable onUpdate : option (Person.t -> P -> Env -> P * Env).

Definition handleUpdate_begin (c : Local) (e : Env) : bool * Env :=
  if is_empty (trim (editName c))
  then (false, env_toast (ToastError "Name cannot be empty") e)
  else (true, env_send (PeopleUpdate (Person.id person) (trim (editName c))) e).

Definition handleUpdate_settle (r : Settled Person.t) (c : Local) (p : P) (e : Env)
  : Local * P * Env :=
  match r with
  | Fulfilled data =>
      let e1 := env_toast (ToastSuccess "Person updated") e in
      let c1 := setIsEditing false c in
      let (p2, e2) := match onUpdate with
                      | Some f => f data p e1
                      | None => (p, e1)
                      end in
      (c1, p2, e2)
  | Rejected message => (c, p, env_toast (ToastError message) e)
  end.

Definition handleUpdate (r : Settled Person.t) (c : Local) (p : P) (e : Env)
  : Local * P * Env :=
  let (issued, e1) := handleUpdate_begin c e in
  if issued then handleUpdate_settle r c p e1 else (c, p, e1).

Definition handleDelete_begin (c : Local) (e : Env) : Env :=
  env_send (PeopleDelete (Person.id person) (deleteImages c)) e.

Definition handleDelete_settle (r : Settled unit) (c : Local) (p : P) (e : Env)
  : Local * P * Env :=
  match r with
  | Fulfilled _ =>
      let e1 := env_toast (ToastSuccess "Person deleted") e in
      let c1 := setIsDeleting false c in
      let (p2, e2) := match onDelete with
                      | Some f => f (Person.id person) p e1
                      | None => (p, e1)
                      end in
      (c1, p2, e2)
  | Rejected message => (c, p, env_toast (ToastError message) e)
  end.

Definition handleDelete (r : Settled unit) (c : Local) (p : P) (e : Env)
  : Local * P * Env :=
  handleDelete_settle r c p (handleDelete_begin c e).
End Card.
End PersonCard.

(** The callbacks the people page passes to its cards. *)
Definition People_onDelete (personId : JsVal) (st : People.State) (e : Env)
  : People.State * Env :=
  (People.handleDelete personId st, e).

Definition People_onUpdate (updatedPerson : Person.t) (st : People.State) (e : Env)
  : People.State * Env :=
  (People_handleUpdate updatedPerson st, e).

(** ** pages/PersonDetail: the edit and delete dialogs *)

Module PersonDetailDialogs.
Record Dialog : Type := mk {
    isEditing : bool;
    isDeleting : bool;
    editName : string;
    deleteImages : bool
  }.

Definition initial : Dialog := mk false false EmptyString false.

Definition setIsEditing (b : bool) (d : Dialog) : Dialog :=
  mk b (isDeleting d) (editName d) (deleteImages d).

Section Route.
Variable trim : string -> string.
(** [const { id } = useParams()] *)
Variable id : JsVal.

Definition handleUpdate_begin (d : Dialog) (e : Env) : bool * Env :=
  if is_empty (trim (editName d))
  then (false, env_toast (ToastError "Name cannot be empty") e)
  else (true, env_send (PeopleUpdate id (trim (editName d))) e).

Definition handleUpdate_settle (r : Settled Person.t) (d : Dialog)
    (st : PersonDetail.State) (e : Env) : Dialog * PersonDetail.State * Env :=
  match r with
  | Fulfilled data =>
      let e1 := env_toast (ToastSuccess "Person updated") e in
      let st1 := PersonDetail.setPerson (fun _ => Some data) st in
      (setIsEditing false d, st1, e1)
  | Rejected message => (d, st, env_toast (ToastError message) e)
  end.

Definition handleUpdate (r : Settled Person.t) (d : Dialog)
    (st : PersonDetail.State) (e : Env) : Dialog * PersonDetail.State * Env :=
  let (issued, e1) := handleUpdate_begin d e in
  if issued then handleUpdate_settle r d st e1 else (d, st, e1).

Definition handleDelete_begin (d : Dialog) (e : Env) : Env :=
  env_send (PeopleDelete id (deleteImages d)) e.

Definition handleDelete_settle (r : Settled unit) (e : Env) : Env :=
  match r with
  | Fulfilled _ =>
      env_world (navigate "/people") (env_toast (ToastSuccess "Person deleted") e)
  | Rejected message => env_toast (ToastError message) e
  end.

Definition handleDelete (r : Settled unit) (d : Dialog) (e : Env) : Env :=
  handleDelete_settle r (handleDelete_begin d e).
End Route.
End PersonDetailDialogs.

(** ** components/ImageCard: the reprocess button *)

Module Reprocess.
(** The response body of [imagesApi.reprocess]: its [message] and its
    [matched_person], which the card passes on as the new owner. *)
Record Res : Type := mkRes {
    message : string;
    matched_person : JsVal
  }.

Definition setIsReprocessing (b : bool) (c : ImageCard.Local) : ImageCard.Local :=
  ImageCard.mk (ImageCard.isDeleting c) (ImageCard.isAssigning c) b
               (ImageCard.showDeleteModal c).

Section Card.
Variable P : Type.
Variable image : Image.t.
Variable onAssign : option (JsVal -> JsVal -> P -> World -> P * World).

Definition handleReprocess_begin (c : ImageCard.Local) (e : Env)
  : ImageCard.Local * Env :=
  (setIsReprocessing true c, env_send (ImagesReprocess (Image.id image)) e).

Definition handleReprocess_settle (r : Settled Res) (c : ImageCard.Local)
    (p : P) (e : Env) : ImageCard.Local * P * Env :=
  match r with
  | Fulfilled result =>
      let e1 := env_toast (ToastSuccess (message result)) e in
      let (p2, w2) := match onAssign with
                      | Some f => f (Image.id image) (matched_person result) p (world e1)
                      | None => (p, world e1)
                      end in
      (setIsReprocessing false c, p2, env_world (fun _ => w2) e1)
  | Rejected msg =>
      (setIsReprocessing false c, p, env_toast (ToastError msg) e)
  end.

Definition handleReprocess (r : Settled Res) (c : ImageCard.Local) (p : P) (e : Env)
  : ImageCard.Local * P * Env :=
  let (c1, e1) := handleReprocess_begin c e in
  handleReprocess_settle r c1 p e1.
End Card.
End Reprocess.

(** ** pages/Upload *)

From Stdlib Require DecimalString.

(** A number inside a template literal. *)
Definition show_nat (n : nat) : string :=
  DecimalString.NilZero.string_of_uint (Nat.to_uint n).
Definition show_Z (z : Z) : string :=
  DecimalString.NilZero.string_of_int (Z.to_int z).

Module Upload.
(** A dropped file after [Object.assign]: its [name], and the [preview] URL
    and the [id] the browser produced for it. *)
Record File : Type := mkFile {
    name : string;
    preview : string;
    id : string
  }.

(** One entry of [result.results]. *)
Record Result : Type := mkResult {
    filename : string;
    success : bool;
    faces_detected : option Z;
    matched_person : JsVal;
    error : string
  }.

(** One entry of [rejectedFiles]: the file's name and its error codes. *)
Record Rejection : Type := mkRejection {
    file_name : string;
    errors : list string
  }.

Record State : Type := mk {
    files : list File;
    uploading : bool;
    progress : Z;
    results : list Result
  }.

Definition initial : State := mk [] false 0 [].

Definition setFiles (f : list File -> list File) (st : State) : State :=
  mk (f (files st)) (uploading st) (progress st) (results st).
Definition setUploading (b : bool) (st : State) : State :=
  mk (files st) b (progress st) (results st).
Definition setProgress (n : Z) (st : State) : State :=
  mk (files st) (uploading st) n (results st).
Definition setResults (rs : list Result) (st : State) : State :=
  mk (files st) (uploading st) (progress st) rs.

(** The toasts of one rejected file, one per error with a known code. *)
Definition rejection_toasts (rejection : Rejection) : list Toast :=
  flat_map
    (fun code =>
       if String.eqb code "file-too-large" then
         [ToastError (String.append (file_name rejection)
                        " is too large. Max size is 16MB.")]
       else if String.eqb code "file-invalid-type" then
         [ToastError (String.append (file_name rejection)
                        " is not a supported image type.")]
       else [])
    (errors rejection).

Definition onDrop (acceptedFiles : list File) (rejectedFiles : list Rejection)
    (st : State) (e : Env) : State * Env :=
  let e1 := fold_left (fun acc t => env_toast t acc)
                      (flat_map rejection_toasts rejectedFiles) e in
  (setFiles (fun prev => prev ++ acceptedFiles) st, e1).

(** [if (file.preview) URL.revokeObjectURL(file.preview)] *)
Definition revoke_preview (file : File) (e : Env) : Env :=
  if is_empty (preview file) then e else env_revoke (preview file) e.

Definition removeFile (fileId : string) (st : State) (e : Env) : State * Env :=
  let e1 := match find (fun f => String.eqb (id f) fileId) (files st) with
            | Some file => revoke_preview file e
            | None => e
            end in
  (setFiles (List.filter (fun f => negb (String.eqb (id f) fileId))) st, e1).

Definition successCount (rs : list Result) : nat :=
  List.length (List.filter success rs).

(** [.reduce((sum, r) => sum + (r.faces_detected || 0), 0)] over the
    successful results. *)
Definition facesCount (rs : list Result) : Z :=
  fold_left (fun sum r => sum + match faces_detected r with
                                | Some n => n
                                | None => 0
                                end)
            (List.filter success rs) 0.

Definition matchedCount (rs : list Result) : nat :=
  List.length (List.filter (fun r => truthy (matched_person r)) rs).

Definition successfulFilenames (rs : list Result) : list string :=
  map filename (List.filter success rs).

(** [successfulFilenames.includes(f.name)] *)
Definition uploaded (rs : list Result) (f : File) : bool :=
  existsb (String.eqb (name f)) (successfulFilenames rs).

(** [handleUpload] up to its [await]; the boolean tells whether the request
    was sent. *)
Definition handleUpload_begin (st : State) (e : Env) : bool * State * Env :=
  if (List.length (files st) =? 0)%nat
  then (false, st, env_toast (ToastError "Please select at least one image") e)
  else (true,
        setResults [] (setProgress 0 (setUploading true st)),
        env_send (ImagesUpload (map name (files st))) e).

(** The one toast of a fulfilled upload; [selected] is [files.length] as the
    handler saw it when it was called. *)
Definition summary (selected : nat) (rs : list Result) : Toast :=
  if (successCount rs =? selected)%nat then
    ToastSuccess
      (String.append "Uploaded "
         (String.append (show_nat (successCount rs))
            (String.append " images. Found "
               (String.append (show_Z (facesCount rs))
                  (String.append " faces, matched "
                     (String.append (show_nat (matchedCount rs)) "."))))))
  else
    ToastError
      (String.append "Uploaded "
         (String.append (show_nat (successCount rs))
            (String.append " of "
               (String.append (show_nat selected)
                  " images. Some uploads failed.")))).

(** [handleUpload] from the settlement on. [selected] is the [files] array of
    the render in which the button was clicked; [setFiles] works on the
    files held when the response arrives. *)
Definition handleUpload_settle (selected : list File) (r : Settled (list Result))
    (st : State) (e : Env) : State * Env :=
  match r with
  | Fulfilled rs =>
      let st1 := setResults rs st in
      let e1 := env_toast (summary (List.length selected) rs) e in
      let st2 := setFiles (List.filter (fun f => negb (uploaded rs f))) st1 in
      (setUploading false st2, e1)
  | Rejected msg =>
      (setUploading false st,
       env_toast (ToastError (if is_empty msg then "Upload failed" else msg)) e)
  end.

Definition handleUpload (r : Settled (list Result)) (st : State) (e : Env)
  : State * Env :=
  let '(issued, st1, e1) := handleUpload_begin st e in
  if issued then handleUpload_settle (files st) r st1 e1 else (st1, e1).

Definition clearAll (st : State) (e : Env) : State * Env :=
  let e1 := fold_left (fun acc file => revoke_preview file acc) (files st) e in
  (setResults [] (setFiles (fun _ => []) st), e1).
End Upload.

(** The toast is a success toast. *)
Definition is_success_toast (t : Toast) : bool :=
  match t with ToastSuccess _ => true | ToastError _ => false end.

(** The two error codes [onDrop] reports. *)
Definition known_code (code : string) : bool :=
  String.eqb code "file-too-large" || String.eqb code "file-invalid-type".

(** ** components/Layout *)

Module Layout.
(** [name] and [href] of the navigation entries, in order. *)
Definition navigation : list (string * string) :=
  [("Dashboard", "/"); ("All Images", "/images"); ("People", "/people");
   ("Unidentified", "/unidentified"); ("Upload", "/upload")]%string.

(** [isActive(path)] at [location.pathname]. *)
Definition isActive (pathname path : string) : bool :=
  if String.eqb path "/" then String.eqb pathname "/"
  else String.prefix path pathname.

(** The entries drawn as active. *)
Definition active (pathname : string) : list (string * string) :=
  List.filter (fun item => isActive pathname (snd item)) navigation.
End Layout.

(** ** More sample data *)

(** Leading and trailing spaces removed: an instance of [trim] for names
    whose only white space is the space character. *)
Fixpoint drop_spaces (s : string) : string :=
  match s with
  | String c rest => if Ascii.eqb c Ascii.Space then drop_spaces rest else s
  | EmptyString => EmptyString
  end.

Fixpoint rev_string (s acc : string) : string :=
  match s with
  | String c rest => rev_string rest (String c acc)
  | EmptyString => acc
  end.

Definition trim_spaces (s : string) : string :=
  rev_string (drop_spaces (rev_string (drop_spaces s) EmptyString)) EmptyString.

Definition person_Q : Person.t := Person.mk (JStr "5") "Q" 3.

Definition two_people : People.State :=
  People.mk [person_P; person_Q] false EmptyString.

Definition photo (n : string) : Upload.File :=
  Upload.mkFile n (String.append "blob:" n) (String.append n "-1").

Definition three_photos : Upload.State :=
  Upload.mk [photo "a.jpg"; photo "b.jpg"; photo "c.jpg"] false 0 [].

(** ** Sequences of card callbacks on the person page *)

Inductive DetailOp : Type :=
| OpDelete (imageId : JsVal)             (* a card calls [onDelete] *)
| OpAssign (imageId personId : JsVal).   (* a card calls [onAssign] *)

Definition PersonDetail_apply (id : JsVal) (op : DetailOp) (st : PersonDetail.State)
  : option PersonDetail.State :=
  match op with
  | OpDelete imageId => PersonDetail.handleImageDelete imageId st
  | OpAssign imageId personId => PersonDetail.handleImageAssign id imageId personId st
  end.

(** The callbacks in order; a throwing callback ends the sequence. *)
Fixpoint PersonDetail_run (id : JsVal) (ops : list DetailOp) (st : PersonDetail.State)
  : option PersonDetail.State :=
  match ops with
  | [] => Some st
  | op :: rest =>
      match PersonDetail_apply id op st with
      | Some st1 => PersonDetail_run id rest st1
      | None => None
      end
  end.

(** The callback removes the image from the person's page. *)
Definition removes (id : JsVal) (op : DetailOp) : bool :=
  match op with
  | OpDelete _ => true
  | OpAssign _ personId => strict_neq personId id
  end.

(** * Properties *)

Unset Implicit Arguments.

(** ** Strict equality *)

Lemma strict_eq_spec (a b : JsVal) : strict_eq a b = true <-> a = b.
Proof.
  destruct a, b; simpl; split; intro H;
    try reflexivity; try discriminate; try congruence.
  - apply Z.eqb_eq in H. now subst.
  - injection H as ->. apply Z.eqb_refl.
  - apply String.eqb_eq in H. now subst.
  - injection H as ->. apply String.eqb_refl.
Qed.

Lemma strict_eq_refl (a : JsVal) : strict_eq a a = true.
Proof. now apply strict_eq_spec. Qed.

Lemma strict_neq_spec (a b : JsVal) : strict_neq a b = true <-> a <> b.
Proof.
  unfold strict_neq. rewrite negb_true_iff.
  split.
  - intros H E. apply strict_eq_spec in E. congruence.
  - intro H. destruct (strict_eq a b) eqn:E; [|reflexivity].
    apply strict_eq_spec in E. contradiction.
Qed.

Lemma strict_eq_sym (a b : JsVal) : strict_eq a b = strict_eq b a.
Proof.
  destruct (strict_eq a b) eqn:E, (strict_eq b a) eqn:F; try reflexivity.
  - apply strict_eq_spec in E. subst. rewrite strict_eq_refl in F. discriminate.
  - apply strict_eq_spec in F. subst. rewrite strict_eq_refl in E. discriminate.
Qed.

(** ** The list part of [removeItem] *)

Section Without.
Variable imageId : JsVal.

Lemma In_without (x : Image.t) (l : list Image.t) :
  In x (without imageId l) <-> In x l /\ Image.id x <> imageId.
Proof.
  unfold without. rewrite filter_In. now rewrite strict_neq_spec.
Qed.

Lemma without_idempotent (l : list Image.t) :
  without imageId (without imageId l) = without imageId l.
Proof.
  induction l as [|x l IH]; simpl; [reflexivity|].
  destruct (strict_neq (Image.id x) imageId) eqn:E; simpl.
  - rewrite E. now f_equal.
  - exact IH.
Qed.

Lemma without_absent (l : list Image.t) :
  ~ In imageId (ids_of l) -> without imageId l = l.
Proof.
  induction l as [|x l IH]; simpl; intro H; [reflexivity|].
  assert (E : strict_neq (Image.id x) imageId = true).
  { apply strict_neq_spec. intro E. apply H. now left. }
  rewrite E. f_equal. apply IH. intro K. apply H. now right.
Qed.

Lemma without_removes (l : list Image.t) :
  ~ In imageId (ids_of (without imageId l)).
Proof.
  unfold ids_of. rewrite in_map_iff. intros (x & E & H).
  apply In_without in H. tauto.
Qed.

Lemma without_length_le (l : list Image.t) :
  (List.length (without imageId l) <= List.length l)%nat.
Proof. apply filter_length_le. Qed.

Lemma without_length_present (l : list Image.t) :
  In imageId (ids_of l) -> (List.length (without imageId l) < List.length l)%nat.
Proof.
  induction l as [|x l IH]; simpl; [tauto|].
  intros [E | H].
  - assert (F : strict_neq (Image.id x) imageId = false).
    { unfold strict_neq. apply negb_false_iff. now apply strict_eq_spec. }
    rewrite F. pose proof (without_length_le l). lia.
  - destruct (strict_neq (Image.id x) imageId); simpl.
    + apply IH in H. lia.
    + pose proof (without_length_le l). lia.
Qed.

Lemma without_length_unique (l : list Image.t) :
  NoDup (ids_of l) -> In imageId (ids_of l) ->
  S (List.length (without imageId l)) = List.length l.
Proof.
  induction l as [|x l IH]; simpl; [tauto|].
  intros ND [E | H]; apply NoDup_cons_iff in ND; destruct ND as [Hx ND'].
  - assert (F : strict_neq (Image.id x) imageId = false).
    { unfold strict_neq. apply negb_false_iff. now apply strict_eq_spec. }
    rewrite F. f_equal. f_equal. apply without_absent. now rewrite <- E.
  - assert (F : strict_neq (Image.id x) imageId = true).
    { apply strict_neq_spec. intro E. apply Hx. now rewrite E. }
    rewrite F. simpl. f_equal. now apply IH.
Qed.

Lemma ids_of_without (l : list Image.t) (i : JsVal) :
  In i (ids_of (without imageId l)) <-> In i (ids_of l) /\ i <> imageId.
Proof.
  unfold ids_of. rewrite !in_map_iff. split.
  - intros (x & E & H). apply In_without in H. destruct H as [H N].
    split; [now exists x | congruence].
  - intros [(x & E & H) N]. exists x. split; [exact E|].
    apply In_without. split; [exact H | congruence].
Qed.

Lemma NoDup_ids_of_without (l : list Image.t) :
  NoDup (ids_of l) -> NoDup (ids_of (without imageId l)).
Proof.
  induction l as [|x l IH]; simpl; intro ND; [constructor|].
  apply NoDup_cons_iff in ND. destruct ND as [Hx ND'].
  destruct (strict_neq (Image.id x) imageId); simpl.
  - constructor; [|now apply IH].
    intro K. apply ids_of_without in K. tauto.
  - now apply IH.
Qed.
End Without.

(** ** Sequences of removals *)

Lemma kept_spec (ids : list JsVal) (x : Image.t) :
  kept ids x = true <-> ~ In (Image.id x) ids.
Proof.
  unfold kept. rewrite negb_true_iff. split.
  - intros H K. assert (E : existsb (strict_eq (Image.id x)) ids = true).
    { apply existsb_exists. exists (Image.id x). split; [exact K|].
      apply strict_eq_refl. }
    congruence.
  - intro H. destruct (existsb (strict_eq (Image.id x)) ids) eqn:E; [|reflexivity].
    apply existsb_exists in E. destruct E as (i & K & E).
    apply strict_eq_spec in E. subst i. contradiction.
Qed.

Lemma kept_cons (i : JsVal) (ids : list JsVal) (x : Image.t) :
  kept (i :: ids) x = strict_neq (Image.id x) i && kept ids x.
Proof. unfold kept, strict_neq. simpl. apply negb_orb. Qed.

Lemma filter_kept_without (i : JsVal) (ids : list JsVal) (l : list Image.t) :
  List.filter (kept ids) (without i l) = List.filter (kept (i :: ids)) l.
Proof.
  induction l as [|x l IH]; simpl; [reflexivity|].
  rewrite kept_cons.
  destruct (strict_neq (Image.id x) i); simpl; [|exact IH].
  destruct (kept ids x); [now f_equal | exact IH].
Qed.

Lemma AllImages_removeAll_images (ids : list JsVal) :
  forall st : AllImages.State,
    AllImages.images (AllImages_removeAll ids st)
    = List.filter (kept ids) (AllImages.images st).
Proof.
  induction ids as [|i ids IH]; intro st; simpl.
  - induction (AllImages.images st) as [|x l IHl]; simpl; [reflexivity|].
    now f_equal.
  - unfold AllImages_removeAll in IH. rewrite IH. simpl.
    apply filter_kept_without.
Qed.

Lemma AllImages_removeAll_pagination (ids : list JsVal) :
  forall st : AllImages.State,
    AllImages.pagination (AllImages_removeAll ids st)
    = Pagination.with_total
        (Pagination.total (AllImages.pagination st) - Z.of_nat (List.length ids))
        (AllImages.pagination st).
Proof.
  induction ids as [|i ids IH]; intro st.
  - simpl. destruct (AllImages.pagination st) as [pg pp t ps].
    unfold Pagination.with_total. simpl. f_equal. lia.
  - change (AllImages_removeAll (i :: ids) st)
      with (AllImages_removeAll ids (AllImages.handleDelete i st)).
    rewrite IH. cbn [AllImages.handleDelete AllImages.setPagination
                     AllImages.setImages AllImages.pagination].
    unfold Pagination.with_total. cbn [Pagination.total Pagination.page
      Pagination.per_page Pagination.pages].
    f_equal. cbn [List.length]. lia.
Qed.

Lemma AllImages_removeAll_frame (ids : list JsVal) :
  forall st : AllImages.State,
    AllImages.people (AllImages_removeAll ids st) = AllImages.people st
    /\ AllImages.loading (AllImages_removeAll ids st) = AllImages.loading st
    /\ AllImages.filter (AllImages_removeAll ids st) = AllImages.filter st.
Proof.
  induction ids as [|i ids IH]; intro st; [now simpl|].
  change (AllImages_removeAll (i :: ids) st)
    with (AllImages_removeAll ids (AllImages.handleDelete i st)).
  destruct (IH (AllImages.handleDelete i st)) as (E1 & E2 & E3).
  rewrite E1, E2, E3. now simpl.
Qed.

Lemma filter_kept_length (ids : list JsVal) :
  forall l : list Image.t,
    NoDup ids -> incl ids (ids_of l) -> NoDup (ids_of l) ->
    (List.length (List.filter (kept ids) l) + List.length ids = List.length l)%nat.
Proof.
  induction ids as [|i ids IH]; intros l Hd Hi Hl.
  - simpl. rewrite Nat.add_0_r. f_equal.
    induction l as [|x l IHl]; simpl; [reflexivity|]. f_equal.
    apply IHl.
    + intros y [].
    + apply NoDup_cons_iff in Hl. tauto.
  - rewrite <- filter_kept_without.
    apply NoDup_cons_iff in Hd. destruct Hd as [Hn Hd].
    assert (Hin : In i (ids_of l)) by (apply Hi; now left).
    pose proof (without_length_unique i l Hl Hin) as Hlen.
    assert (IH' : (List.length (List.filter (kept ids) (without i l))
                   + List.length ids = List.length (without i l))%nat).
    { apply IH.
      - exact Hd.
      - intros j Hj. apply ids_of_without. split.
        + apply Hi. now right.
        + intro E. apply Hn. now rewrite <- E.
      - now apply NoDup_ids_of_without. }
    cbn [List.length]. lia.
Qed.

(** ** removeItem *)

(** C1, as stated, fails on [totalCount]: with two held images and total 2,
    removing image 1 twice leaves total 0 where removing it once leaves 1,
    and removing the absent id 9 lowers the total from 2 to 1. *)
Lemma C1_total_is_not_idempotent :
  Pagination.total (AllImages.pagination
     (AllImages.handleDelete (JNum 1) (AllImages.handleDelete (JNum 1) two_images)))
  <> Pagination.total (AllImages.pagination
       (AllImages.handleDelete (JNum 1) two_images))
  /\ ~ In (JNum 9) (ids_of (AllImages.images two_images))
  /\ Pagination.total (AllImages.pagination (AllImages.handleDelete (JNum 9) two_images))
     <> Pagination.total (AllImages.pagination two_images).
Proof.
  repeat split.
  - vm_compute. discriminate.
  - simpl. intros [H | [H | []]]; discriminate.
  - vm_compute. discriminate.
Qed.

(** C1, amended: [removeItem] is idempotent on the held items only. In the
    all-images and unidentified views, removing an id twice leaves the same
    items as removing it once, and removing an id that no held item carries
    leaves the items unchanged; [totalCount] is lowered by 1 on every call,
    whether or not the id is held. *)
Theorem C1_removeItem_idempotent_on_items :
  forall (imageId : JsVal) (a : AllImages.State) (u : Unidentified.State),
    AllImages.images (AllImages.handleDelete imageId (AllImages.handleDelete imageId a))
    = AllImages.images (AllImages.handleDelete imageId a)
    /\ Unidentified.images
         (Unidentified.handleDelete imageId (Unidentified.handleDelete imageId u))
       = Unidentified.images (Unidentified.handleDelete imageId u)
    /\ (~ In imageId (ids_of (AllImages.images a)) ->
        AllImages.images (AllImages.handleDelete imageId a) = AllImages.images a)
    /\ (~ In imageId (ids_of (Unidentified.images u)) ->
        Unidentified.images (Unidentified.handleDelete imageId u)
        = Unidentified.images u)
    /\ Pagination.total (AllImages.pagination (AllImages.handleDelete imageId a))
       = Pagination.total (AllImages.pagination a) - 1
    /\ Pagination.total (Unidentified.pagination (Unidentified.handleDelete imageId u))
       = Pagination.total (Unidentified.pagination u) - 1.
Proof.
  intros imageId a u. simpl.
  repeat split; try apply without_idempotent; apply without_absent.
Qed.

Lemma C1_removeItem_idempotent_on_items_witness :
  ~ In (JNum 9) (ids_of (AllImages.images two_images))
  /\ ~ In (JNum 9) (ids_of (Unidentified.images five_unidentified))
  /\ AllImages.images (AllImages.handleDelete (JNum 9) two_images)
     = AllImages.images two_images
  /\ Unidentified.images (Unidentified.handleDelete (JNum 9) five_unidentified)
     = Unidentified.images five_unidentified.
Proof.
  assert (Ha : ~ In (JNum 9) (ids_of (AllImages.images two_images))).
  { simpl. intros [H | [H | []]]; discriminate. }
  assert (Hu : ~ In (JNum 9) (ids_of (Unidentified.images five_unidentified))).
  { simpl. intros [H | [H | [H | [H | [H | []]]]]]; discriminate. }
  destruct (C1_removeItem_idempotent_on_items (JNum 9) two_images five_unidentified)
    as (_ & _ & Ka & Ku & _).
  exact (conj Ha (conj Hu (conj (Ka Ha) (Ku Hu)))).
Defined.

(** C8: [removeItem] leaves [totalPages] as it was, and with it the page
    number and the page size; only [total] is rewritten. This holds in the
    all-images and unidentified views, and in the person-detail view whenever
    the handler returns. *)
Theorem C8_removeItem_keeps_totalPages :
  forall (imageId : JsVal) (a : AllImages.State) (u : Unidentified.State)
         (d : PersonDetail.State),
    Pagination.pages (AllImages.pagination (AllImages.handleDelete imageId a))
    = Pagination.pages (AllImages.pagination a)
    /\ Pagination.pages (Unidentified.pagination (Unidentified.handleDelete imageId u))
       = Pagination.pages (Unidentified.pagination u)
    /\ option_map (fun s => Pagination.pages (PersonDetail.pagination s))
                  (PersonDetail.handleImageDelete imageId d)
       = option_map (fun _ => Pagination.pages (PersonDetail.pagination d))
                    (PersonDetail.person d)
    /\ AllImages.pagination (AllImages.handleDelete imageId a)
       = Pagination.with_total (Pagination.total (AllImages.pagination a) - 1)
                               (AllImages.pagination a)
    /\ Unidentified.pagination (Unidentified.handleDelete imageId u)
       = Pagination.with_total (Pagination.total (Unidentified.pagination u) - 1)
                               (Unidentified.pagination u).
Proof.
  intros imageId a u d. repeat split.
  unfold PersonDetail.handleImageDelete, PersonDetail.decrement_image_count.
  simpl. now destruct (PersonDetail.person d).
Qed.

(** C4: a sequence of [removeItem] calls with distinct ids, each carried by a
    held item, leaves exactly the held items whose id is none of them, in
    their order and unmodified, and lowers [totalCount] by the number of
    calls; nothing else of the page state changes. When the held items have
    distinct ids, the number of held items drops by the same amount. *)
Theorem C4_removeItem_sequence :
  forall (ids : list JsVal) (st : AllImages.State),
    NoDup ids ->
    incl ids (ids_of (AllImages.images st)) ->
    let st' := AllImages_removeAll ids st in
    AllImages.images st' = List.filter (kept ids) (AllImages.images st)
    /\ (forall x, In x (AllImages.images st') <->
                  In x (AllImages.images st) /\ ~ In (Image.id x) ids)
    /\ Pagination.total (AllImages.pagination st')
       = Pagination.total (AllImages.pagination st) - Z.of_nat (List.length ids)
    /\ Pagination.page (AllImages.pagination st')
       = Pagination.page (AllImages.pagination st)
    /\ Pagination.per_page (AllImages.pagination st')
       = Pagination.per_page (AllImages.pagination st)
    /\ Pagination.pages (AllImages.pagination st')
       = Pagination.pages (AllImages.pagination st)
    /\ AllImages.filter st' = AllImages.filter st
    /\ (NoDup (ids_of (AllImages.images st)) ->
        (List.length (AllImages.images st') + List.length ids
         = List.length (AllImages.images st))%nat).
Proof.
  intros ids st Hd Hi st'. subst st'.
  rewrite AllImages_removeAll_images, AllImages_removeAll_pagination.
  destruct (AllImages_removeAll_frame ids st) as (_ & _ & Hf).
  split; [reflexivity|].
  split; [intro x; rewrite filter_In, kept_spec; tauto|].
  repeat (split; [reflexivity|]).
  split; [exact Hf|].
  intro Hl. now apply filter_kept_length.
Qed.

Lemma C4_removeItem_sequence_witness :
  AllImages.images (AllImages_removeAll [JNum 2; JNum 1] two_images) = []
  /\ Pagination.total (AllImages.pagination
                         (AllImages_removeAll [JNum 2; JNum 1] two_images)) = 0.
Proof.
  assert (Hd : NoDup [JNum 2; JNum 1]).
  { repeat constructor; simpl; intros H; repeat destruct H as [H | H];
      try discriminate; exact H. }
  assert (Hi : incl [JNum 2; JNum 1] (ids_of (AllImages.images two_images))).
  { intros i H. simpl in *. tauto. }
  destruct (C4_removeItem_sequence [JNum 2; JNum 1] two_images Hd Hi) as (E1 & _ & E2 & _).
  split; [exact E1 | exact E2].
Defined.

(** ** Mutations requested from a card *)

Section CardFacts.
Variable P : Type.
Variable image : Image.t.
Variable onDelete : option (JsVal -> P -> World -> P * World).
Variable onAssign : option (JsVal -> JsVal -> P -> World -> P * World).

Lemma card_delete_rejected (message : string) (c : ImageCard.Local) (p : P) (w : World) :
  ImageCard.handleDelete image onDelete (Rejected message) c p w
  = (ImageCard.setIsDeleting false (ImageCard.setIsDeleting true c), p,
     toast (ToastError message) (request [ImagesDelete (Image.id image)] w)).
Proof. reflexivity. Qed.

Lemma card_assign_rejected (personId : JsVal) (message : string)
    (c : ImageCard.Local) (p : P) (w : World) :
  ImageCard.handleAssign image onAssign personId (Rejected message) c p w
  = (ImageCard.setIsAssigning false (ImageCard.setIsAssigning true c), p,
     toast (ToastError message) (request [ImagesAssign (Image.id image) personId] w)).
Proof. reflexivity. Qed.
End CardFacts.

(** C2: when the server call of a delete or of a reassign is rejected, the
    page state that holds the items and the pagination is returned as it
    was, whatever callbacks the page passed, and exactly one error toast
    carrying the error's message is added; the page's callback runs only in
    the fulfilled branch, after the success toast. *)
Theorem C2_failed_mutation_leaves_page_state :
  forall (P : Type) (image : Image.t)
         (onDelete : option (JsVal -> P -> World -> P * World))
         (onAssign : option (JsVal -> JsVal -> P -> World -> P * World))
         (personId : JsVal) (message : string)
         (c : ImageCard.Local) (p : P) (w : World),
    snd (fst (ImageCard.handleDelete image onDelete (Rejected message) c p w)) = p
    /\ toasts (snd (ImageCard.handleDelete image onDelete (Rejected message) c p w))
       = toasts w ++ [ToastError message]
    /\ snd (fst (ImageCard.handleAssign image onAssign personId
                   (Rejected message) c p w)) = p
    /\ toasts (snd (ImageCard.handleAssign image onAssign personId
                      (Rejected message) c p w))
       = toasts w ++ [ToastError message]
    /\ snd (fst (ImageCard.handleDelete image onDelete (Fulfilled tt) c p w))
       = match onDelete with
         | Some f => fst (f (Image.id image) p
                            (toast (ToastSuccess "Image deleted")
                               (request [ImagesDelete (Image.id image)] w)))
         | None => p
         end
    /\ snd (fst (ImageCard.handleAssign image onAssign personId
                   (Fulfilled tt) c p w))
       = match onAssign with
         | Some f => fst (f (Image.id image) personId p
                            (toast (ToastSuccess (if truthy personId
                                                  then "Image assigned"
                                                  else "Image unassigned"))
                               (request [ImagesAssign (Image.id image) personId] w)))
         | None => p
         end.
Proof.
  intros P image onDelete onAssign personId message c p w.
  rewrite card_delete_rejected, card_assign_rejected.
  repeat split.
  - unfold ImageCard.handleDelete, ImageCard.handleDelete_begin,
      ImageCard.handleDelete_settle.
    destruct onDelete as [f|]; [|reflexivity].
    now destruct (f _ _ _).
  - unfold ImageCard.handleAssign, ImageCard.handleAssign_begin,
      ImageCard.handleAssign_settle.
    destruct onAssign as [f|]; [|reflexivity].
    now destruct (f _ _ _ _).
Qed.

(** ** Loading *)

(** How the two views that do notify the user settle a failed load. *)
Lemma load_failure_toasts_once (message : string) (id : JsVal)
    (s : People.State) (d : PersonDetail.State) (w : World) :
  People.people (fst (People.fetchPeople_settle (Rejected message) s w))
  = People.people s
  /\ toasts (snd (People.fetchPeople_settle (Rejected message) s w))
     = toasts w ++ [ToastError "Failed to fetch people"]
  /\ PersonDetail.images (fst (PersonDetail.fetchData_settle (Rejected message) d w))
     = PersonDetail.images d
  /\ PersonDetail.pagination (fst (PersonDetail.fetchData_settle (Rejected message) d w))
     = PersonDetail.pagination d
  /\ toasts (snd (PersonDetail.fetchData_settle (Rejected message) d w))
     = toasts w ++ [ToastError "Failed to load person"].
Proof. repeat split. Qed.

(** C3, on the code: a failed load of the all-images view and of the
    unidentified view keeps the held items and the pagination, but adds no
    toast; the failure is written to the console only. *)
Theorem C3_image_views_load_failure_is_silent :
  forall (message : string) (a : AllImages.State) (u : Unidentified.State) (w : World),
    AllImages.images (fst (AllImages.fetchData_settle (Rejected message) a w))
    = AllImages.images a
    /\ AllImages.pagination (fst (AllImages.fetchData_settle (Rejected message) a w))
       = AllImages.pagination a
    /\ toasts (snd (AllImages.fetchData_settle (Rejected message) a w)) = toasts w
    /\ console (snd (AllImages.fetchData_settle (Rejected message) a w))
       = console w ++ [String.append "Failed to fetch images: " message]
    /\ Unidentified.images (fst (Unidentified.fetchData_settle (Rejected message) u w))
       = Unidentified.images u
    /\ Unidentified.pagination
         (fst (Unidentified.fetchData_settle (Rejected message) u w))
       = Unidentified.pagination u
    /\ toasts (snd (Unidentified.fetchData_settle (Rejected message) u w)) = toasts w.
Proof. intros. repeat split. Qed.

(** ** reassignItem in a scoped view *)

(** C5, as stated, fails for a new owner that is not none but falsy: in the
    unidentified view with five held images, reassigning image 3 to the
    owner [0] returns the state itself; image 3 is still held and the total
    is still 5. *)
Lemma C5_owner_zero_is_not_removed :
  JNum 0 <> JNull
  /\ JNum 0 <> JUndefined
  /\ Unidentified.handleAssign (JNum 3) (JNum 0) five_unidentified = five_unidentified
  /\ In (JNum 3)
        (ids_of (Unidentified.images
                   (Unidentified.handleAssign (JNum 3) (JNum 0) five_unidentified)))
  /\ Pagination.total
       (Unidentified.pagination
          (Unidentified.handleAssign (JNum 3) (JNum 0) five_unidentified)) = 5.
Proof.
  split; [discriminate|]. split; [discriminate|]. split; [reflexivity|].
  split; [simpl; tauto | reflexivity].
Qed.

(** C5, amended: in the unidentified view a reassignment to a truthy owner
    (any owner but [null], [undefined], [0] and the empty string) does
    exactly what [removeItem] does there: the held items become the held
    items without that id, none of them carries the id any more, there are
    fewer of them when the id was held, and [totalCount] drops by 1 with
    [totalPages] untouched; a reassignment to a falsy owner returns the
    state itself. In the person view, with the person held, a reassignment
    to an owner different from the route's person does exactly what that
    view's [removeItem] does: the result is the held state with the images
    without that id, [totalCount] lower by 1 and the person's [image_count]
    lower by 1. *)
Theorem C5_scoped_reassign_is_remove :
  forall (id imageId personId : JsVal) (u : Unidentified.State)
         (d : PersonDetail.State) (p : Person.t),
    (truthy personId = true ->
     Unidentified.handleAssign imageId personId u = Unidentified.handleDelete imageId u
     /\ Unidentified.images (Unidentified.handleAssign imageId personId u)
        = without imageId (Unidentified.images u)
     /\ ~ In imageId
            (ids_of (Unidentified.images (Unidentified.handleAssign imageId personId u)))
     /\ (In imageId (ids_of (Unidentified.images u)) ->
         (List.length (Unidentified.images (Unidentified.handleAssign imageId personId u))
          < List.length (Unidentified.images u))%nat)
     /\ Pagination.total (Unidentified.pagination
                            (Unidentified.handleAssign imageId personId u))
        = Pagination.total (Unidentified.pagination u) - 1
     /\ Pagination.pages (Unidentified.pagination
                            (Unidentified.handleAssign imageId personId u))
        = Pagination.pages (Unidentified.pagination u))
    /\ (truthy personId = false -> Unidentified.handleAssign imageId personId u = u)
    /\ (personId <> id ->
        PersonDetail.person d = Some p ->
        PersonDetail.handleImageAssign id imageId personId d
        = PersonDetail.handleImageDelete imageId d
        /\ PersonDetail.handleImageAssign id imageId personId d
           = Some (PersonDetail.mk
                     (Some (Person.mk (Person.id p) (Person.name p)
                              (Person.image_count p - 1)))
                     (without imageId (PersonDetail.images d))
                     (PersonDetail.allPeople d)
                     (PersonDetail.loading d)
                     (Pagination.with_total
                        (Pagination.total (PersonDetail.pagination d) - 1)
                        (PersonDetail.pagination d)))
        /\ ~ In imageId (ids_of (without imageId (PersonDetail.images d)))
        /\ (In imageId (ids_of (PersonDetail.images d)) ->
            (List.length (without imageId (PersonDetail.images d))
             < List.length (PersonDetail.images d))%nat)).
Proof.
  intros id imageId personId u d p. split; [|split].
  - intro H. unfold Unidentified.handleAssign. rewrite H.
    split; [reflexivity|]. split; [reflexivity|].
    split; [apply without_removes|].
    split; [apply without_length_present|].
    split; reflexivity.
  - intro H. unfold Unidentified.handleAssign. now rewrite H.
  - intros N Hp. apply strict_neq_spec in N.
    unfold PersonDetail.handleImageAssign. rewrite N.
    split; [reflexivity|].
    split.
    { unfold PersonDetail.decrement_image_count. simpl. now rewrite Hp. }
    split; [apply without_removes | apply without_length_present].
Qed.

Lemma C5_scoped_reassign_is_remove_witness :
  List.length (Unidentified.images five_unidentified) = 5%nat
  /\ ids_of (Unidentified.images
               (Unidentified.handleAssign (JNum 3) (JNum 7) five_unidentified))
     = [JNum 1; JNum 2; JNum 4; JNum 5]
  /\ Pagination.total (Unidentified.pagination
                         (Unidentified.handleAssign (JNum 3) (JNum 7) five_unidentified))
     = 4
  /\ option_map (fun s => ids_of (PersonDetail.images s))
                (PersonDetail.handleImageAssign (JStr "4") (JNum 2) (JStr "5") detail_of_P)
     = Some [JNum 1; JNum 3]
  /\ option_map (fun s => Pagination.total (PersonDetail.pagination s))
                (PersonDetail.handleImageAssign (JStr "4") (JNum 2) (JStr "5") detail_of_P)
     = Some 9.
Proof.
  destruct (C5_scoped_reassign_is_remove (JStr "4") (JNum 3) (JNum 7)
              five_unidentified detail_of_P person_P) as (Hu & _ & _).
  destruct (C5_scoped_reassign_is_remove (JStr "4") (JNum 2) (JStr "5")
              five_unidentified detail_of_P person_P) as (_ & _ & Hd).
  destruct (Hu eq_refl) as (_ & Ei & _ & _ & Et & _).
  assert (N : JStr "5" <> JStr "4") by discriminate.
  destruct (Hd N eq_refl) as (_ & Ed & _).
  split; [reflexivity|].
  split; [rewrite Ei; reflexivity|].
  split; [rewrite Et; reflexivity|].
  rewrite Ed. split; reflexivity.
Defined.

(** C10: in the unidentified view a reassignment to [null] (or to
    [undefined]) returns the page state itself: items, [totalCount] and
    [totalPages] are untouched, the effect does not run again, and the state
    is also unchanged when the call comes from a card whose server call
    succeeded. *)
Theorem C10_unassign_in_unidentified_is_noop :
  forall (imageId : JsVal) (image : Image.t) (c : ImageCard.Local)
         (u : Unidentified.State) (w : World),
    Unidentified.handleAssign imageId JNull u = u
    /\ Unidentified.handleAssign imageId JUndefined u = u
    /\ Unidentified.useEffect u (Unidentified.handleAssign imageId JNull u) w = (u, w)
    /\ snd (fst (ImageCard.handleAssign image (Some Unidentified_onAssign) JNull
                   (Fulfilled tt) c u w)) = u.
Proof.
  intros imageId image c u w. repeat split.
  unfold Unidentified.useEffect, Unidentified.deps_changed. simpl.
  now rewrite Z.eqb_refl.
Qed.

(** ** reassignItem in the all-images view *)

(** C6, as stated, fails: reassigning image 1 to person 7 in the all-images
    view leaves image 1's [person_id] at [null] in the held items, and a
    reload of the page is issued. *)
Lemma C6_all_view_reassign_is_not_in_place :
  map Image.person_id
      (AllImages.images
         (fst (AllImages.handleAssign two_images (JNum 1) (JNum 7) two_images
                 empty_world)))
  = [JNull; JNull]
  /\ calls (snd (AllImages.handleAssign two_images (JNum 1) (JNum 7) two_images
                   empty_world))
     = [ImagesGetAll (mkParams (Some 1) (Some 30) (Some FAll) None);
        PeopleGetAll no_params].
Proof. split; reflexivity. Qed.

(** The reload asks for the page that was shown when the assignment was
    requested: with page 1 of 3 shown, an assignment is requested, Next is
    clicked and page 2 is loaded before the server answers; the callback then
    reloads page 1 while the state holds page 2. *)
Lemma pending_assign_reloads_the_page_it_was_requested_on :
  let shown := AllImages.setPagination (fun _ => Pagination.mk 1 30 70 3) two_images in
  let clicked := AllImages.useEffect shown (AllImages_click Pager.Next shown)
                   empty_world in
  let loaded := AllImages.fetchData_settle
                  (Fulfilled (mkImagesRes [img 31]
                                (Pagination.mk_patch (Some 2) (Some 30) (Some 70) (Some 3)),
                              mkPeopleRes []))
                  (fst clicked) (snd clicked) in
  let answered := AllImages.handleAssign shown (JNum 1) (JNum 7)
                    (fst loaded) (snd loaded) in
  Pagination.page (AllImages.pagination (fst loaded)) = 2
  /\ calls (snd answered)
     = [ImagesGetAll (mkParams (Some 2) (Some 30) (Some FAll) None);
        PeopleGetAll no_params;
        ImagesGetAll (mkParams (Some 1) (Some 30) (Some FAll) None);
        PeopleGetAll no_params]
  /\ Pagination.page (AllImages.pagination (fst answered)) = 2.
Proof. repeat split. Qed.

(** C6, amended: in the all-images view a reassignment changes no held item
    and no pagination field by itself; it starts exactly one reload, which
    carries the page, the page size and the filter of the page as it was
    rendered when the assignment was requested (the held ones when nothing
    changed them in between), together with the people request. Through a
    card this is the one request after the assign call. When the reload is
    fulfilled the held items become the response's items and the pagination
    becomes the response's pagination laid over the held one; when it is
    rejected items and pagination stay as they were. *)
Theorem C6_all_view_reassign_reloads :
  forall (render : AllImages.State) (imageId personId : JsVal)
         (image : Image.t) (c : ImageCard.Local)
         (st : AllImages.State) (w : World),
    let started := AllImages.handleAssign render imageId personId st w in
    AllImages.images (fst started) = AllImages.images st
    /\ AllImages.pagination (fst started) = AllImages.pagination st
    /\ AllImages.filter (fst started) = AllImages.filter st
    /\ AllImages.loading (fst started) = true
    /\ toasts (snd started) = toasts w
    /\ calls (snd started)
       = calls w ++
         [ImagesGetAll
            (mkParams (Some (Pagination.page (AllImages.pagination render)))
                      (Some (Pagination.per_page (AllImages.pagination render)))
                      (Some (AllImages.filter render)) None);
          PeopleGetAll no_params]
    /\ calls (snd (AllImages.handleAssign st imageId personId st w))
       = calls w ++
         [ImagesGetAll
            (mkParams (Some (Pagination.page (AllImages.pagination st)))
                      (Some (Pagination.per_page (AllImages.pagination st)))
                      (Some (AllImages.filter st)) None);
          PeopleGetAll no_params]
    /\ calls (snd (ImageCard.handleAssign image (Some (AllImages_onAssign render))
                     personId (Fulfilled tt) c st w))
       = calls w ++
         [ImagesAssign (Image.id image) personId;
          ImagesGetAll
            (mkParams (Some (Pagination.page (AllImages.pagination render)))
                      (Some (Pagination.per_page (AllImages.pagination render)))
                      (Some (AllImages.filter render)) None);
          PeopleGetAll no_params]
    /\ AllImages.images
         (snd (fst (ImageCard.handleAssign image (Some (AllImages_onAssign render))
                      personId (Fulfilled tt) c st w)))
       = AllImages.images st
    /\ (forall (imagesRes : ImagesRes) (peopleRes : PeopleRes),
          let done := AllImages.fetchData_settle (Fulfilled (imagesRes, peopleRes))
                        (fst started) (snd started) in
          AllImages.images (fst done) = ir_data imagesRes
          /\ AllImages.pagination (fst done)
             = Pagination.spread (AllImages.pagination st) (ir_pagination imagesRes)
          /\ AllImages.loading (fst done) = false)
    /\ (forall message : string,
          let done := AllImages.fetchData_settle (Rejected message)
                        (fst started) (snd started) in
          AllImages.images (fst done) = AllImages.images st
          /\ AllImages.pagination (fst done) = AllImages.pagination st).
Proof.
  intros. subst started. simpl.
  repeat split. now rewrite <- app_assoc.
Qed.

(** ** Changing the filter or the search term *)

(** C7, as stated, fails for the search term: typing "a" into the empty
    search box of the people view issues one request, and that request
    carries the search term but no page. *)
Lemma C7_search_request_carries_no_page :
  calls (snd (People.useEffect (people_searching EmptyString)
                (People.onSearchChange "a" (people_searching EmptyString)) empty_world))
  = [PeopleGetAll (mkParams None None None (Some "a"%string))]
  /\ map page_of_call
         (calls (snd (People.useEffect (people_searching EmptyString)
                        (People.onSearchChange "a" (people_searching EmptyString))
                        empty_world)))
     <> [Some 1].
Proof. split; [reflexivity | discriminate]. Qed.

Lemma Filter_eqb_spec (a b : Filter) : Filter_eqb a b = true <-> a = b.
Proof. destruct a, b; simpl; split; congruence. Qed.

(** C7, amended: in the all-images view, clicking a filter button whose value
    differs from the held filter sets the page to 1 and the filter to that
    value, and the effect issues exactly one load: one images request
    carrying page 1, the held page size and the new filter, with the people
    request that belongs to the same load. In the people view, changing the
    search term issues exactly one load, carrying the new term; that view
    holds no page number and its request carries none. *)
Theorem C7_filter_or_search_change_loads_once :
  forall (value : Filter) (st : AllImages.State)
         (term : string) (ps : People.State) (w : World),
    AllImages.filter st <> value ->
    People.search ps <> term ->
    let next := AllImages.onFilterClick value st in
    let loaded := AllImages.useEffect st next w in
    let searched := People.useEffect ps (People.onSearchChange term ps) w in
    Pagination.page (AllImages.pagination next) = 1
    /\ AllImages.filter next = value
    /\ Pagination.page (AllImages.pagination (fst loaded)) = 1
    /\ AllImages.filter (fst loaded) = value
    /\ AllImages.images (fst loaded) = AllImages.images st
    /\ calls (snd loaded)
       = calls w ++
         [ImagesGetAll (mkParams (Some 1)
                          (Some (Pagination.per_page (AllImages.pagination st)))
                          (Some value) None);
          PeopleGetAll no_params]
    /\ People.search (fst searched) = term
    /\ calls (snd searched)
       = calls w ++ [PeopleGetAll (mkParams None None None (Some term))].
Proof.
  intros value st term ps w Hf Hs next loaded searched.
  assert (Ef : Filter_eqb (AllImages.filter st) value = false).
  { destruct (Filter_eqb (AllImages.filter st) value) eqn:E; [|reflexivity].
    apply Filter_eqb_spec in E. contradiction. }
  assert (Es : String.eqb (People.search ps) term = false).
  { now apply String.eqb_neq. }
  subst next loaded searched.
  unfold AllImages.useEffect, AllImages.deps_changed,
    People.useEffect, People.deps_changed.
  simpl. rewrite Ef, Es, orb_true_r. simpl.
  repeat split.
Qed.

Lemma C7_filter_or_search_change_loads_once_witness :
  Pagination.page
    (AllImages.pagination
       (fst (AllImages.useEffect
               (AllImages.setPagination (Pagination.with_page 3) two_images)
               (AllImages.onFilterClick FIdentified
                  (AllImages.setPagination (Pagination.with_page 3) two_images))
               empty_world))) = 1
  /\ calls (snd (AllImages.useEffect
                   (AllImages.setPagination (Pagination.with_page 3) two_images)
                   (AllImages.onFilterClick FIdentified
                      (AllImages.setPagination (Pagination.with_page 3) two_images))
                   empty_world))
     = [ImagesGetAll (mkParams (Some 1) (Some 30) (Some FIdentified) None);
        PeopleGetAll no_params]
  /\ calls (snd (People.useEffect (people_searching EmptyString)
                   (People.onSearchChange "a" (people_searching EmptyString)) empty_world))
     = [PeopleGetAll (mkParams None None None (Some "a"%string))].
Proof.
  assert (Hf : AllImages.filter
                 (AllImages.setPagination (Pagination.with_page 3) two_images)
               <> FIdentified) by (simpl; discriminate).
  assert (Hs : People.search (people_searching EmptyString) <> "a"%string)
    by (simpl; discriminate).
  destruct (C7_filter_or_search_change_loads_once FIdentified
              (AllImages.setPagination (Pagination.with_page 3) two_images)
              "a"%string (people_searching EmptyString) empty_world Hf Hs)
    as (_ & _ & E1 & _ & _ & E2 & _ & E3).
  exact (conj E1 (conj E2 E3)).
Defined.

(** ** Deleting an image in the person-detail view *)

(** C9: with a person held, deleting an image whose id is among the held
    items returns a state in which that id is no longer held, the number of
    held items is smaller, [totalCount] is lower by 1 and the held person's
    [image_count] is lower by exactly 1; the effect's dependencies are
    unchanged, so no load is issued. *)
Theorem C9_detail_delete_decrements_image_count :
  forall (imageId : JsVal) (d : PersonDetail.State) (p : Person.t),
    PersonDetail.person d = Some p ->
    In imageId (ids_of (PersonDetail.images d)) ->
    exists d' : PersonDetail.State,
      PersonDetail.handleImageDelete imageId d = Some d'
      /\ PersonDetail.images d' = without imageId (PersonDetail.images d)
      /\ ~ In imageId (ids_of (PersonDetail.images d'))
      /\ (List.length (PersonDetail.images d')
          < List.length (PersonDetail.images d))%nat
      /\ Pagination.total (PersonDetail.pagination d')
         = Pagination.total (PersonDetail.pagination d) - 1
      /\ PersonDetail.person d'
         = Some (Person.mk (Person.id p) (Person.name p) (Person.image_count p - 1))
      /\ (forall (id : JsVal) (w : World),
            PersonDetail.useEffect id d d' w = (d', w)).
Proof.
  intros imageId d p Hp Hin.
  unfold PersonDetail.handleImageDelete, PersonDetail.decrement_image_count.
  simpl. rewrite Hp. eexists. split; [reflexivity|]. simpl.
  split; [reflexivity|].
  split; [apply without_removes|].
  split; [now apply without_length_present|].
  split; [reflexivity|].
  split; [reflexivity|].
  intros id w. unfold PersonDetail.useEffect, PersonDetail.deps_changed.
  simpl. now rewrite strict_eq_refl, Z.eqb_refl.
Qed.

Lemma C9_detail_delete_decrements_image_count_witness :
  option_map Person.image_count (PersonDetail.person detail_of_P) = Some 10
  /\ exists d' : PersonDetail.State,
       PersonDetail.handleImageDelete (JNum 2) detail_of_P = Some d'
       /\ ids_of (PersonDetail.images d') = [JNum 1; JNum 3]
       /\ Pagination.total (PersonDetail.pagination d') = 9
       /\ option_map Person.image_count (PersonDetail.person d') = Some 9.
Proof.
  split; [reflexivity|].
  assert (Hin : In (JNum 2) (ids_of (PersonDetail.images detail_of_P)))
    by (simpl; tauto).
  destruct (C9_detail_delete_decrements_image_count (JNum 2) detail_of_P person_P
              eq_refl Hin) as (d' & E & Ei & _ & _ & Et & Ep & _).
  exists d'. split; [exact E|].
  split; [rewrite Ei; reflexivity|].
  split; [rewrite Et; reflexivity|].
  rewrite Ep. reflexivity.
Defined.

(** * Further properties of the views *)

(** ** Paging *)

Lemma Pager_turn_in_range (b : Pager.Button) (p : Pagination.t) :
  in_range p -> Pager.clickable b p = true ->
  in_range (Pager.turn b p)
  /\ Pagination.pages (Pager.turn b p) = Pagination.pages p
  /\ Pagination.page (Pager.turn b p) <> Pagination.page p.
Proof.
  unfold in_range, Pager.clickable, Pager.rendered, Pager.disabled.
  intros R C. apply andb_true_iff in C. destruct C as [_ C].
  apply negb_true_iff in C.
  destruct b; simpl in *; apply Z.eqb_neq in C; lia.
Qed.

Lemma AllImages_click_pagination (b : Pager.Button) (st : AllImages.State) :
  AllImages.pagination (AllImages_click b st)
  = (if Pager.clickable b (AllImages.pagination st)
     then Pager.turn b (AllImages.pagination st)
     else AllImages.pagination st)
  /\ AllImages.images (AllImages_click b st) = AllImages.images st
  /\ AllImages.filter (AllImages_click b st) = AllImages.filter st.
Proof.
  unfold AllImages_click.
  destruct (Pager.clickable b (AllImages.pagination st)); [|now repeat split].
  destruct b; now repeat split.
Qed.

Lemma AllImages_browse_step (b : Pager.Button) (st : AllImages.State) (w : World) :
  let r := AllImages.useEffect st (AllImages_click b st) w in
  AllImages.pagination (fst r) = AllImages.pagination (AllImages_click b st)
  /\ AllImages.images (fst r) = AllImages.images st
  /\ AllImages.filter (fst r) = AllImages.filter st.
Proof.
  destruct (AllImages_click_pagination b st) as (Ep & Ei & Ef).
  unfold AllImages.useEffect. simpl.
  destruct (AllImages.deps_changed st (AllImages_click b st)); simpl;
    now rewrite Ei, Ef.
Qed.

(** X1: starting from a page number between 1 and [pages], no sequence of
    clicks on the Previous and Next buttons takes the page number outside
    that range, in any of the three image views; the clicks change neither
    [pages] nor the held items. *)
Theorem pager_keeps_page_in_range :
  forall (bs : list Pager.Button) (a : AllImages.State) (u : Unidentified.State)
         (d : PersonDetail.State) (w : World),
    in_range (AllImages.pagination a) ->
    in_range (Unidentified.pagination u) ->
    in_range (PersonDetail.pagination d) ->
    let a' := fst (AllImages_browse bs a w) in
    let u' := fold_left (fun s b => Unidentified_click b s) bs u in
    let d' := fold_left (fun s b => PersonDetail_click b s) bs d in
    (in_range (AllImages.pagination a')
     /\ Pagination.pages (AllImages.pagination a')
        = Pagination.pages (AllImages.pagination a)
     /\ AllImages.images a' = AllImages.images a)
    /\ (in_range (Unidentified.pagination u')
        /\ Pagination.pages (Unidentified.pagination u')
           = Pagination.pages (Unidentified.pagination u)
        /\ Unidentified.images u' = Unidentified.images u)
    /\ (in_range (PersonDetail.pagination d')
        /\ Pagination.pages (PersonDetail.pagination d')
           = Pagination.pages (PersonDetail.pagination d)
        /\ PersonDetail.images d' = PersonDetail.images d).
Proof.
  intros bs. induction bs as [|b bs IH]; intros a u d w Ha Hu Hd.
  - simpl. repeat split; solve [apply Ha | apply Hu | apply Hd].
  - set (ra := AllImages.useEffect a (AllImages_click b a) w).
    set (u1 := Unidentified_click b u).
    set (d1 := PersonDetail_click b d).
    assert (Sa : in_range (AllImages.pagination (fst ra))
                 /\ Pagination.pages (AllImages.pagination (fst ra))
                    = Pagination.pages (AllImages.pagination a)
                 /\ AllImages.images (fst ra) = AllImages.images a).
    { destruct (AllImages_browse_step b a w) as (Ep & Ei & _).
      destruct (AllImages_click_pagination b a) as (Eq & _).
      fold ra in Ep, Ei. rewrite Ep, Eq, Ei.
      destruct (Pager.clickable b (AllImages.pagination a)) eqn:C.
      - destruct (Pager_turn_in_range b _ Ha C) as (R & E & _).
        split; [exact R | split; [exact E | reflexivity]].
      - split; [exact Ha | split; reflexivity]. }
    assert (Su : in_range (Unidentified.pagination u1)
                 /\ Pagination.pages (Unidentified.pagination u1)
                    = Pagination.pages (Unidentified.pagination u)
                 /\ Unidentified.images u1 = Unidentified.images u).
    { subst u1. unfold Unidentified_click.
      destruct (Pager.clickable b (Unidentified.pagination u)) eqn:C.
      - destruct (Pager_turn_in_range b _ Hu C) as (R & E & _).
        split; [exact R | split; [exact E | reflexivity]].
      - split; [exact Hu | split; reflexivity]. }
    assert (Sd : in_range (PersonDetail.pagination d1)
                 /\ Pagination.pages (PersonDetail.pagination d1)
                    = Pagination.pages (PersonDetail.pagination d)
                 /\ PersonDetail.images d1 = PersonDetail.images d).
    { subst d1. unfold PersonDetail_click.
      destruct (Pager.clickable b (PersonDetail.pagination d)) eqn:C.
      - destruct (Pager_turn_in_range b _ Hd C) as (R & E & _).
        split; [exact R | split; [exact E | reflexivity]].
      - split; [exact Hd | split; reflexivity]. }
    destruct Sa as (Ra & Pa & Ia), Su as (Ru & Pu & Iu), Sd as (Rd & Pd & Id).
    specialize (IH (fst ra) u1 d1 (snd ra) Ra Ru Rd).
    cbn zeta in IH. destruct IH as ((A1 & A2 & A3) & (U1 & U2 & U3) & (D1 & D2 & D3)).
    assert (Eb : AllImages_browse (b :: bs) a w = AllImages_browse bs (fst ra) (snd ra)).
    { unfold AllImages_browse. simpl. fold ra. now destruct ra. }
    cbn zeta. rewrite Eb. simpl fold_left. fold u1 d1.
    split; [|split].
    + split; [exact A1 | split; congruence].
    + split; [exact U1 | split; congruence].
    + split; [exact D1 | split; congruence].
Qed.

Lemma pager_keeps_page_in_range_witness :
  in_range
    (AllImages.pagination
       (fst (AllImages_browse [Pager.Next; Pager.Next; Pager.Next; Pager.Previous]
               (AllImages.setPagination (fun _ => Pagination.mk 2 30 70 3) two_images)
               empty_world)))
  /\ Pagination.page
       (AllImages.pagination
          (fst (AllImages_browse [Pager.Next; Pager.Next; Pager.Next; Pager.Previous]
                  (AllImages.setPagination (fun _ => Pagination.mk 2 30 70 3) two_images)
                  empty_world))) = 2.
Proof.
  pose (a := AllImages.setPagination (fun _ => Pagination.mk 2 30 70 3) two_images).
  pose (u := Unidentified.setPagination (fun _ => Pagination.mk 1 30 70 3)
               five_unidentified).
  pose (d := PersonDetail.setPagination (fun _ => Pagination.mk 3 30 70 3) detail_of_P).
  assert (Ha : in_range (AllImages.pagination a)) by (unfold in_range; simpl; lia).
  assert (Hu : in_range (Unidentified.pagination u)) by (unfold in_range; simpl; lia).
  assert (Hd : in_range (PersonDetail.pagination d)) by (unfold in_range; simpl; lia).
  split; [|reflexivity].
  exact (proj1 (proj1 (pager_keeps_page_in_range
                         [Pager.Next; Pager.Next; Pager.Next; Pager.Previous]
                         a u d empty_world Ha Hu Hd))).
Defined.

(** X2: in the all-images view a click on an enabled Previous or Next button
    issues exactly one load, for the neighbouring page with the held page
    size and filter, and leaves the held items in place until it settles; a
    button that is not rendered or is disabled changes nothing and issues no
    request. *)
Theorem page_click_loads_neighbour_once :
  forall (b : Pager.Button) (st : AllImages.State) (w : World),
    (Pager.clickable b (AllImages.pagination st) = true ->
     let r := AllImages.useEffect st (AllImages_click b st) w in
     calls (snd r)
     = calls w ++
       [ImagesGetAll
          (mkParams (Some (Pagination.page (AllImages.pagination st)
                           + match b with Pager.Previous => -1 | Pager.Next => 1 end))
                    (Some (Pagination.per_page (AllImages.pagination st)))
                    (Some (AllImages.filter st)) None);
        PeopleGetAll no_params]
     /\ AllImages.images (fst r) = AllImages.images st
     /\ AllImages.loading (fst r) = true
     /\ toasts (snd r) = toasts w)
    /\ (Pager.clickable b (AllImages.pagination st) = false ->
        AllImages.useEffect st (AllImages_click b st) w = (st, w)).
Proof.
  intros b st w. split; intro C.
  - assert (N : Pagination.page (AllImages.pagination st)
                + match b with Pager.Previous => -1 | Pager.Next => 1 end
                <> Pagination.page (AllImages.pagination st))
      by (destruct b; lia).
    unfold AllImages.useEffect, AllImages.deps_changed, AllImages_click.
    rewrite C.
    destruct b; simpl;
      match goal with
      | |- context [?x =? ?y] =>
          replace (x =? y) with false by (symmetry; apply Z.eqb_neq; lia)
      end; simpl; repeat split; repeat f_equal; lia.
  - unfold AllImages.useEffect, AllImages.deps_changed, AllImages_click.
    rewrite C. rewrite Z.eqb_refl.
    destruct (AllImages.filter st); reflexivity.
Qed.

Lemma page_click_loads_neighbour_once_witness :
  calls (snd (AllImages.useEffect
                (AllImages.setPagination (fun _ => Pagination.mk 2 30 70 3) two_images)
                (AllImages_click Pager.Next
                   (AllImages.setPagination (fun _ => Pagination.mk 2 30 70 3)
                      two_images))
                empty_world))
  = [ImagesGetAll (mkParams (Some 3) (Some 30) (Some FAll) None);
     PeopleGetAll no_params]
  /\ AllImages.useEffect two_images (AllImages_click Pager.Next two_images) empty_world
     = (two_images, empty_world).
Proof.
  split.
  - exact (proj1 (proj1 (page_click_loads_neighbour_once Pager.Next
                           (AllImages.setPagination (fun _ => Pagination.mk 2 30 70 3)
                              two_images) empty_world) eq_refl)).
  - exact (proj2 (page_click_loads_neighbour_once Pager.Next two_images empty_world)
                 eq_refl).
Defined.

(** ** Loads replace what is held *)

(** X3: a fulfilled load whose pagination carries all four keys decides the
    resulting state alone: from any two held states (with the same filter,
    in the all-images view) the result is the same, so whatever optimistic
    removal or earlier response was held before is overwritten. *)
Theorem fulfilled_load_overwrites_held_state :
  forall (imagesRes : ImagesRes) (personRes : PersonImagesRes) (peopleRes : PeopleRes)
         (a a' : AllImages.State) (u u' : Unidentified.State)
         (d d' : PersonDetail.State) (w w' : World),
    carries_all_keys (ir_pagination imagesRes) = true ->
    carries_all_keys (pir_pagination personRes) = true ->
    AllImages.filter a = AllImages.filter a' ->
    fst (AllImages.fetchData_settle (Fulfilled (imagesRes, peopleRes)) a w)
    = fst (AllImages.fetchData_settle (Fulfilled (imagesRes, peopleRes)) a' w')
    /\ fst (Unidentified.fetchData_settle (Fulfilled (imagesRes, peopleRes)) u w)
       = fst (Unidentified.fetchData_settle (Fulfilled (imagesRes, peopleRes)) u' w')
    /\ fst (PersonDetail.fetchData_settle (Fulfilled (personRes, peopleRes)) d w)
       = fst (PersonDetail.fetchData_settle (Fulfilled (personRes, peopleRes)) d' w')
    /\ AllImages.images
         (fst (AllImages.fetchData_settle (Fulfilled (imagesRes, peopleRes)) a w))
       = ir_data imagesRes
    /\ Unidentified.images
         (fst (Unidentified.fetchData_settle (Fulfilled (imagesRes, peopleRes)) u w))
       = ir_data imagesRes
    /\ PersonDetail.images
         (fst (PersonDetail.fetchData_settle (Fulfilled (personRes, peopleRes)) d w))
       = pir_data personRes
    /\ PersonDetail.person
         (fst (PersonDetail.fetchData_settle (Fulfilled (personRes, peopleRes)) d w))
       = pir_person personRes.
Proof.
  intros imagesRes personRes peopleRes a a' u u' d d' w w' Hi Hp Hf.
  unfold carries_all_keys in Hi, Hp.
  destruct imagesRes as [data [pg pp pt ps]], personRes as [person pdata [qg qp qt qs]].
  simpl in Hi, Hp.
  destruct pg, pp, pt, ps; try discriminate.
  destruct qg, qp, qt, qs; try discriminate.
  unfold AllImages.fetchData_settle, Unidentified.fetchData_settle,
    PersonDetail.fetchData_settle,
    AllImages.setLoading, AllImages.setPagination, AllImages.setPeople,
    AllImages.setImages, Unidentified.setLoading, Unidentified.setPagination,
    Unidentified.setPeople, Unidentified.setImages, PersonDetail.setLoading,
    PersonDetail.setPagination, PersonDetail.setAllPeople, PersonDetail.setImages,
    PersonDetail.setPerson, Pagination.spread.
  cbn. rewrite Hf. repeat split.
Qed.

Lemma fulfilled_load_overwrites_held_state_witness :
  fst (AllImages.fetchData_settle
         (Fulfilled (mkImagesRes [img 7]
                       (Pagination.mk_patch (Some 1) (Some 30) (Some 1) (Some 1)),
                     mkPeopleRes []))
         (AllImages.handleDelete (JNum 1) two_images) empty_world)
  = fst (AllImages.fetchData_settle
           (Fulfilled (mkImagesRes [img 7]
                         (Pagination.mk_patch (Some 1) (Some 30) (Some 1) (Some 1)),
                       mkPeopleRes []))
           two_images empty_world).
Proof.
  exact (proj1 (fulfilled_load_overwrites_held_state
                  (mkImagesRes [img 7]
                     (Pagination.mk_patch (Some 1) (Some 30) (Some 1) (Some 1)))
                  (mkPersonImagesRes None []
                     (Pagination.mk_patch (Some 1) (Some 30) (Some 0) (Some 0)))
                  (mkPeopleRes [])
                  (AllImages.handleDelete (JNum 1) two_images) two_images
                  five_unidentified five_unidentified detail_of_P detail_of_P
                  empty_world empty_world eq_refl eq_refl eq_refl)).
Defined.

(** ** Counts stay in step with the held items *)



(** X5: in the all-images view a card's delete whose server call is
    fulfilled sends one delete request, shows one success toast, removes the
    card's image from the held items, lowers [total] by one, closes the
    confirmation dialog, and triggers no reload. *)
Theorem fulfilled_card_delete_in_all_images :
  forall (image : Image.t) (c : ImageCard.Local) (st : AllImages.State) (w : World),
    let r := ImageCard.handleDelete image (Some AllImages_onDelete)
               (Fulfilled tt) c st w in
    let st' := snd (fst r) in
    AllImages.images st' = without (Image.id image) (AllImages.images st)
    /\ ~ In (Image.id image) (ids_of (AllImages.images st'))
    /\ Pagination.total (AllImages.pagination st')
       = Pagination.total (AllImages.pagination st) - 1
    /\ calls (snd r) = calls w ++ [ImagesDelete (Image.id image)]
    /\ toasts (snd r) = toasts w ++ [ToastSuccess "Image deleted"]
    /\ ImageCard.showDeleteModal (fst (fst r)) = false
    /\ ImageCard.isDeleting (fst (fst r)) = false
    /\ AllImages.useEffect st st' (snd r) = (st', snd r).
Proof.
  intros image c st w. cbn zeta.
  unfold ImageCard.handleDelete, ImageCard.handleDelete_begin,
    ImageCard.handleDelete_settle, AllImages_onDelete. simpl.
  repeat split.
  - apply without_removes.
  - unfold AllImages.useEffect, AllImages.deps_changed. simpl.
    rewrite Z.eqb_refl. now destruct (AllImages.filter st).
Qed.

(** ** The people page *)

Section FilterFacts.
Variable A : Type.
Variable f : A -> bool.

Lemma filter_twice (l : list A) : List.filter f (List.filter f l) = List.filter f l.
Proof.
  induction l as [|x l IH]; simpl; [reflexivity|].
  destruct (f x) eqn:E; simpl; [rewrite E; now f_equal | exact IH].
Qed.

Lemma filter_all (l : list A) :
  (forall x, In x l -> f x = true) -> List.filter f l = l.
Proof.
  induction l as [|x l IH]; simpl; intro H; [reflexivity|].
  rewrite (H x (or_introl eq_refl)). f_equal. apply IH. intros y Hy. apply H. now right.
Qed.

Lemma filter_length_all (l : list A) :
  List.length (List.filter f l) = List.length l <-> (forall x, In x l -> f x = true).
Proof.
  induction l as [|x l IH]; simpl.
  - split; [intros _ y [] | reflexivity].
  - pose proof (filter_length_le f l) as Hle.
    destruct (f x) eqn:E; simpl.
    + split.
      * intros H y [<- | Hy]; [exact E|]. apply IH; [lia | exact Hy].
      * intro H. f_equal. apply IH. intros y Hy. apply H. now right.
    + split; [lia|].
      intro H. specialize (H x (or_introl eq_refl)). congruence.
Qed.
End FilterFacts.

(** X6: on the people page a reported deletion removes every held person
    with that id and nothing else; it is idempotent on the whole page state
    and changes nothing when no held person has the id (this page keeps no
    separate count). *)
Theorem people_delete_is_idempotent :
  forall (personId : JsVal) (st : People.State),
    People.handleDelete personId (People.handleDelete personId st)
    = People.handleDelete personId st
    /\ ~ In personId (person_ids (People.people (People.handleDelete personId st)))
    /\ (forall p, In p (People.people (People.handleDelete personId st)) <->
                  In p (People.people st) /\ Person.id p <> personId)
    /\ (~ In personId (person_ids (People.people st)) ->
        People.handleDelete personId st = st).
Proof.
  intros personId st. destruct st as [ps ld se].
  unfold People.handleDelete, People.setPeople. simpl.
  split; [now rewrite filter_twice|].
  split.
  { unfold person_ids. rewrite in_map_iff. intros (p & E & H).
    apply filter_In in H. destruct H as [_ H]. apply strict_neq_spec in H. congruence. }
  split.
  { intro p. rewrite filter_In. now rewrite strict_neq_spec. }
  intro H. f_equal. apply filter_all. intros p Hp. apply strict_neq_spec.
  intro E. apply H. unfold person_ids. rewrite in_map_iff. now exists p.
Qed.

Lemma people_delete_is_idempotent_witness :
  People.handleDelete (JStr "9") two_people = two_people.
Proof.
  apply (proj2 (proj2 (proj2 (people_delete_is_idempotent (JStr "9") two_people)))).
  simpl. intros [H | [H | []]]; discriminate.
Defined.

Lemma replace_person_ids (up : Person.t) (l : list Person.t) :
  person_ids (replace_person up l) = person_ids l.
Proof.
  unfold person_ids, replace_person. rewrite map_map. apply map_ext_in.
  intros p _. destruct (strict_eq (Person.id p) (Person.id up)) eqn:E; [|reflexivity].
  apply strict_eq_spec in E. now symmetry.
Qed.

Lemma replace_person_twice (up : Person.t) (l : list Person.t) :
  replace_person up (replace_person up l) = replace_person up l.
Proof.
  unfold replace_person. rewrite map_map. apply map_ext_in. intros p _.
  destruct (strict_eq (Person.id p) (Person.id up)) eqn:E.
  - now rewrite strict_eq_refl.
  - now rewrite E.
Qed.

(** X7: on the people page a reported update keeps the number, the order and
    the ids of the held people; every held person with the updated id is
    replaced by the updated record, every other one is kept as it is; the
    update is idempotent and changes nothing when no held person has that
    id. *)
Theorem people_update_replaces_in_place :
  forall (updatedPerson : Person.t) (st : People.State),
    let st' := People_handleUpdate updatedPerson st in
    person_ids (People.people st') = person_ids (People.people st)
    /\ List.length (People.people st') = List.length (People.people st)
    /\ People_handleUpdate updatedPerson st' = st'
    /\ (forall n p, nth_error (People.people st) n = Some p ->
          nth_error (People.people st') n
          = Some (if strict_eq (Person.id p) (Person.id updatedPerson)
                  then updatedPerson else p))
    /\ (~ In (Person.id updatedPerson) (person_ids (People.people st)) -> st' = st).
Proof.
  intros up st. destruct st as [ps ld se]. cbn zeta.
  unfold People_handleUpdate, People.setPeople. simpl.
  split; [apply replace_person_ids|].
  split; [unfold replace_person; apply length_map|].
  split; [now rewrite replace_person_twice|].
  split.
  { intros n p H. unfold replace_person. rewrite nth_error_map, H. reflexivity. }
  intro H. f_equal. unfold replace_person.
  rewrite <- (map_id ps) at 2. apply map_ext_in. intros p Hp.
  destruct (strict_eq (Person.id p) (Person.id up)) eqn:E; [|reflexivity].
  apply strict_eq_spec in E. exfalso. apply H. unfold person_ids.
  rewrite in_map_iff. now exists p.
Qed.

Lemma people_update_replaces_in_place_witness :
  People_handleUpdate (Person.mk (JStr "9") "Z" 0) two_people = two_people
  /\ People.people (People_handleUpdate (Person.mk (JStr "5") "Quentin" 3) two_people)
     = [person_P; Person.mk (JStr "5") "Quentin" 3].
Proof.
  split; [|reflexivity].
  apply (proj2 (proj2 (proj2 (proj2
           (people_update_replaces_in_place (Person.mk (JStr "9") "Z" 0) two_people))))).
  simpl. intros [H | [H | []]]; discriminate.
Defined.

(** X8: a name that trims to the empty string never reaches the server. The
    create dialog of the people page, the edit dialog of a person card and
    the edit dialog of the person page each show one error toast, send no
    request, and leave the dialog and the page state untouched, whatever
    the server would have answered. *)
Theorem blank_name_is_rejected_locally :
  forall (trim : string -> string) (typed : string)
         (r : Settled Person.t) (isCreating : bool) (st : People.State)
         (P : Type) (person : Person.t)
         (onUpdate : option (Person.t -> P -> Env -> P * Env))
         (c : PersonCard.Local) (p : P)
         (id : JsVal) (d : PersonDetailDialogs.Dialog) (ds : PersonDetail.State)
         (e : Env),
    trim typed = EmptyString ->
    PersonCard.editName c = typed ->
    PersonDetailDialogs.editName d = typed ->
    PeopleCreate.handleCreate trim r (PeopleCreate.mk isCreating typed) st e
    = (PeopleCreate.mk isCreating typed, st,
       env_toast (ToastError "Please enter a name") e)
    /\ PersonCard.handleUpdate trim person onUpdate r c p e
       = (c, p, env_toast (ToastError "Name cannot be empty") e)
    /\ PersonDetailDialogs.handleUpdate trim id r d ds e
       = (d, ds, env_toast (ToastError "Name cannot be empty") e)
    /\ sent (env_toast (ToastError "Name cannot be empty") e) = sent e.
Proof.
  intros trim typed r isCreating st P person onUpdate c p id d ds e Ht Ec Ed.
  unfold PeopleCreate.handleCreate, PeopleCreate.handleCreate_begin,
    PersonCard.handleUpdate, PersonCard.handleUpdate_begin,
    PersonDetailDialogs.handleUpdate, PersonDetailDialogs.handleUpdate_begin.
  simpl. rewrite Ec, Ed, Ht. simpl. repeat split.
Qed.

Lemma blank_name_is_rejected_locally_witness :
  sent (snd (PeopleCreate.handleCreate trim_spaces (Fulfilled person_Q)
               (PeopleCreate.mk true "   ") two_people empty_env)) = []
  /\ People.people (snd (fst (PeopleCreate.handleCreate trim_spaces (Fulfilled person_Q)
                                (PeopleCreate.mk true "   ") two_people empty_env)))
     = [person_P; person_Q].
Proof.
  destruct (blank_name_is_rejected_locally trim_spaces "   " (Fulfilled person_Q)
              true two_people People.State person_P None
              (PersonCard.mk true false "   " false) two_people
              (JStr "4") (PersonDetailDialogs.mk true false "   " false) detail_of_P
              empty_env eq_refl eq_refl eq_refl) as (E & _).
  rewrite E. split; reflexivity.
Defined.

(** X9: with a name that does not trim to the empty string, the create dialog
    sends exactly one create request carrying the trimmed name. When it is
    fulfilled the created person is put in front of the held people, which
    are otherwise unchanged, the dialog is closed and its input cleared;
    when it is rejected the held people are unchanged and the dialog stays
    as it was, with one error toast carrying the message. *)
Theorem create_person_outcomes :
  forall (trim : string -> string) (d : PeopleCreate.Dialog) (st : People.State)
         (e : Env) (data : Person.t) (message : string),
    trim (PeopleCreate.newName d) <> EmptyString ->
    let ok := PeopleCreate.handleCreate trim (Fulfilled data) d st e in
    let ko := PeopleCreate.handleCreate trim (Rejected message) d st e in
    People.people (snd (fst ok)) = data :: People.people st
    /\ People.search (snd (fst ok)) = People.search st
    /\ fst (fst ok) = PeopleCreate.mk false EmptyString
    /\ sent (snd ok) = sent e ++ [PeopleCreate (trim (PeopleCreate.newName d))]
    /\ toasts (world (snd ok)) = toasts (world e) ++ [ToastSuccess "Person created"]
    /\ snd (fst ko) = st
    /\ fst (fst ko) = d
    /\ sent (snd ko) = sent e ++ [PeopleCreate (trim (PeopleCreate.newName d))]
    /\ toasts (world (snd ko)) = toasts (world e) ++ [ToastError message].
Proof.
  intros trim d st e data message Hn. cbn zeta.
  unfold PeopleCreate.handleCreate, PeopleCreate.handleCreate_begin, is_empty.
  apply String.eqb_neq in Hn. rewrite Hn. simpl. repeat split.
Qed.

Lemma create_person_outcomes_witness :
  People.people
    (snd (fst (PeopleCreate.handleCreate trim_spaces (Fulfilled person_Q)
                 (PeopleCreate.mk true " Q ") (people_searching EmptyString)
                 empty_env)))
  = [person_Q; person_P]
  /\ sent (snd (PeopleCreate.handleCreate trim_spaces (Fulfilled person_Q)
                  (PeopleCreate.mk true " Q ") (people_searching EmptyString)
                  empty_env))
     = [PeopleCreate "Q"].
Proof.
  assert (Hn : trim_spaces (PeopleCreate.newName (PeopleCreate.mk true " Q "))
               <> EmptyString) by (vm_compute; discriminate).
  destruct (create_person_outcomes trim_spaces (PeopleCreate.mk true " Q ")
              (people_searching EmptyString) empty_env person_Q "no"%string Hn)
    as (E1 & _ & _ & E2 & _).
  split; [exact E1 | exact E2].
Defined.

Lemma People_step_loading (trim : string -> string) (ev : PeopleCreate.Event)
    (d : PeopleCreate.Dialog) (st : People.State) (e : Env) :
  People.loading (snd (fst (PeopleCreate.step trim ev (d, st, e))))
  = People.loading st && negb (PeopleCreate.is_Loaded ev).
Proof.
  destruct ev as [value | r | | | value | r | personId | up]; simpl;
    try (now rewrite andb_true_r).
  - unfold People.useEffect.
    destruct (People.deps_changed st (People.onSearchChange value st)); simpl;
      now rewrite andb_true_r.
  - destruct r; simpl; now rewrite andb_false_r.
  - unfold PeopleCreate.handleCreate, PeopleCreate.handleCreate_begin.
    destruct (is_empty (trim (PeopleCreate.newName d))); simpl;
      [now rewrite andb_true_r|].
    destruct r; simpl; now rewrite andb_true_r.
Qed.

(** X10: the people page never sets its loading flag back to [true]. Over
    any sequence of events (typing in the search box, loads settling, the
    create dialog, deletions and updates reported by cards) the flag is
    [true] afterwards exactly when it was [true] before and no load has
    settled in between; once a load has settled, later searches run without
    the page loader. *)
Theorem people_loading_never_returns :
  forall (trim : string -> string) (evs : list PeopleCreate.Event)
         (d : PeopleCreate.Dialog) (st : People.State) (e : Env),
    People.loading (snd (fst (PeopleCreate.run trim evs (d, st, e))))
    = People.loading st && negb (existsb PeopleCreate.is_Loaded evs).
Proof.
  intros trim evs. induction evs as [|ev evs IH]; intros d st e.
  - simpl. now rewrite andb_true_r.
  - change (PeopleCreate.run trim (ev :: evs) (d, st, e))
      with (PeopleCreate.run trim evs (PeopleCreate.step trim ev (d, st, e))).
    pose proof (People_step_loading trim ev d st e) as L.
    destruct (PeopleCreate.step trim ev (d, st, e)) as [[d1 st1] e1].
    rewrite IH. simpl in L. rewrite L. simpl existsb.
    rewrite negb_orb. now rewrite andb_assoc.
Qed.

(** ** Person cards on the people page *)

(** X11: on the people page, deleting a person from a card sends one delete
    request carrying the card's delete-images choice. When it is fulfilled
    no held person has the card's id any more, the others are kept and the
    confirmation closes; when it is rejected the held people and the card
    are unchanged and one error toast carries the message. *)
Theorem person_card_delete_on_people_page :
  forall (person : Person.t) (c : PersonCard.Local) (st : People.State) (e : Env)
         (message : string),
    let ok := PersonCard.handleDelete person (Some People_onDelete)
                (Fulfilled tt) c st e in
    let ko := PersonCard.handleDelete person (Some People_onDelete)
                (Rejected message) c st e in
    ~ In (Person.id person) (person_ids (People.people (snd (fst ok))))
    /\ (forall p, In p (People.people (snd (fst ok))) <->
                  In p (People.people st) /\ Person.id p <> Person.id person)
    /\ PersonCard.isDeleting (fst (fst ok)) = false
    /\ sent (snd ok)
       = sent e ++ [PeopleDelete (Person.id person) (PersonCard.deleteImages c)]
    /\ toasts (world (snd ok)) = toasts (world e) ++ [ToastSuccess "Person deleted"]
    /\ snd (fst ko) = st
    /\ fst (fst ko) = c
    /\ sent (snd ko)
       = sent e ++ [PeopleDelete (Person.id person) (PersonCard.deleteImages c)]
    /\ toasts (world (snd ko)) = toasts (world e) ++ [ToastError message].
Proof.
  intros person c st e message. cbn zeta.
  destruct (people_delete_is_idempotent (Person.id person) st) as (_ & H1 & H2 & _).
  unfold PersonCard.handleDelete, PersonCard.handleDelete_begin,
    PersonCard.handleDelete_settle, People_onDelete. simpl.
  split; [exact H1|]. split; [exact H2|]. repeat split.
Qed.

(** X12: on the people page, renaming a person from a card with a name that
    does not trim to the empty string sends one update request carrying the
    trimmed name. When it is fulfilled with a record of the same id, the
    held people keep their number, order and ids, the card's person is
    replaced by the returned record and the edit dialog closes; when it is
    rejected nothing held changes and the dialog stays open. *)
Theorem person_card_rename_on_people_page :
  forall (trim : string -> string) (person data : Person.t) (c : PersonCard.Local)
         (st : People.State) (e : Env) (message : string),
    trim (PersonCard.editName c) <> EmptyString ->
    Person.id data = Person.id person ->
    let ok := PersonCard.handleUpdate trim person (Some People_onUpdate)
                (Fulfilled data) c st e in
    let ko := PersonCard.handleUpdate trim person (Some People_onUpdate)
                (Rejected message) c st e in
    person_ids (People.people (snd (fst ok))) = person_ids (People.people st)
    /\ (forall n, nth_error (People.people st) n = Some person ->
                  nth_error (People.people (snd (fst ok))) n = Some data)
    /\ (forall n p, nth_error (People.people st) n = Some p ->
                    Person.id p <> Person.id person ->
                    nth_error (People.people (snd (fst ok))) n = Some p)
    /\ PersonCard.isEditing (fst (fst ok)) = false
    /\ sent (snd ok)
       = sent e ++ [PeopleUpdate (Person.id person) (trim (PersonCard.editName c))]
    /\ snd (fst ko) = st
    /\ fst (fst ko) = c
    /\ toasts (world (snd ko)) = toasts (world e) ++ [ToastError message].
Proof.
  intros trim person data c st e message Hn Hid. cbn zeta.
  destruct (people_update_replaces_in_place data st) as (H1 & _ & _ & H4 & _).
  unfold PersonCard.handleUpdate, PersonCard.handleUpdate_begin,
    PersonCard.handleUpdate_settle, People_onUpdate, is_empty.
  apply String.eqb_neq in Hn. rewrite Hn.
  cbn beta iota zeta delta [fst snd PersonCard.isEditing PersonCard.setIsEditing
                            sent world toasts env_toast env_send env_world toast].
  split; [exact H1|].
  split.
  { intros n H. rewrite (H4 n person H), Hid. now rewrite strict_eq_refl. }
  split.
  { intros n p H N. rewrite (H4 n p H), Hid.
    destruct (strict_eq (Person.id p) (Person.id person)) eqn:E; [|reflexivity].
    apply strict_eq_spec in E. contradiction. }
  repeat split.
Qed.

Lemma person_card_rename_on_people_page_witness :
  People.people
    (snd (fst (PersonCard.handleUpdate trim_spaces person_Q (Some People_onUpdate)
                 (Fulfilled (Person.mk (JStr "5") "Quentin" 3))
                 (PersonCard.mk true false " Quentin " false) two_people empty_env)))
  = [person_P; Person.mk (JStr "5") "Quentin" 3]
  /\ sent (snd (PersonCard.handleUpdate trim_spaces person_Q (Some People_onUpdate)
                  (Fulfilled (Person.mk (JStr "5") "Quentin" 3))
                  (PersonCard.mk true false " Quentin " false) two_people empty_env))
     = [PeopleUpdate (JStr "5") "Quentin"].
Proof.
  assert (Hn : trim_spaces
                 (PersonCard.editName (PersonCard.mk true false " Quentin " false))
               <> EmptyString) by (vm_compute; discriminate).
  destruct (person_card_rename_on_people_page trim_spaces person_Q
              (Person.mk (JStr "5") "Quentin" 3)
              (PersonCard.mk true false " Quentin " false) two_people empty_env
              "no"%string Hn eq_refl) as (_ & _ & _ & _ & E & _).
  split; [reflexivity | exact E].
Defined.

(** ** The dialogs of the person page *)

(** X13: on the person page, deleting the person navigates to the people
    list exactly when the request is fulfilled; a rejected delete shows one
    error toast and navigates nowhere. A rename with a name that does not
    trim to the empty string replaces the held person by the returned
    record when fulfilled and never touches the held images or the
    pagination, so it starts no reload. *)
Theorem person_page_dialog_outcomes :
  forall (trim : string -> string) (id : JsVal) (d : PersonDetailDialogs.Dialog)
         (st : PersonDetail.State) (e : Env) (data : Person.t) (message : string),
    trim (PersonDetailDialogs.editName d) <> EmptyString ->
    let gone := PersonDetailDialogs.handleDelete id (Fulfilled tt) d e in
    let kept := PersonDetailDialogs.handleDelete id (Rejected message) d e in
    let ok := PersonDetailDialogs.handleUpdate trim id (Fulfilled data) d st e in
    let ko := PersonDetailDialogs.handleUpdate trim id (Rejected message) d st e in
    navigated (world gone) = navigated (world e) ++ ["/people"%string]
    /\ navigated (world kept) = navigated (world e)
    /\ toasts (world kept) = toasts (world e) ++ [ToastError message]
    /\ sent gone = sent e ++ [PeopleDelete id (PersonDetailDialogs.deleteImages d)]
    /\ sent kept = sent e ++ [PeopleDelete id (PersonDetailDialogs.deleteImages d)]
    /\ PersonDetail.person (snd (fst ok)) = Some data
    /\ PersonDetail.images (snd (fst ok)) = PersonDetail.images st
    /\ PersonDetail.pagination (snd (fst ok)) = PersonDetail.pagination st
    /\ PersonDetail.useEffect id st (snd (fst ok)) (world (snd ok))
       = (snd (fst ok), world (snd ok))
    /\ snd (fst ko) = st
    /\ sent (snd ok)
       = sent e ++ [PeopleUpdate id (trim (PersonDetailDialogs.editName d))].
Proof.
  intros trim id d st e data message Hn. cbn zeta.
  unfold PersonDetailDialogs.handleUpdate, PersonDetailDialogs.handleUpdate_begin,
    is_empty.
  apply String.eqb_neq in Hn. rewrite Hn. simpl.
  repeat split.
  unfold PersonDetail.useEffect, PersonDetail.deps_changed. simpl.
  now rewrite strict_eq_refl, Z.eqb_refl.
Qed.

Lemma person_page_dialog_outcomes_witness :
  navigated (world (PersonDetailDialogs.handleDelete (JStr "4") (Rejected "busy")
                      (PersonDetailDialogs.mk false true "P" false) empty_env)) = []
  /\ navigated (world (PersonDetailDialogs.handleDelete (JStr "4") (Fulfilled tt)
                         (PersonDetailDialogs.mk false true "P" false) empty_env))
     = ["/people"%string].
Proof.
  assert (Hn : trim_spaces (PersonDetailDialogs.editName
                              (PersonDetailDialogs.mk false true "P" false))
               <> EmptyString) by (vm_compute; discriminate).
  destruct (person_page_dialog_outcomes trim_spaces (JStr "4")
              (PersonDetailDialogs.mk false true "P" false) detail_of_P empty_env
              person_P "busy"%string Hn) as (E1 & E2 & _).
  split; [exact E2 | exact E1].
Defined.

(** ** The reprocess button *)

(** X14: in the unidentified view, a fulfilled reprocess whose
    [matched_person] is truthy removes the card's image and lowers [total]
    by one, exactly as a removal does; with a falsy [matched_person] the
    page state is unchanged. A rejected reprocess leaves the page state
    unchanged and shows one error toast. In every case exactly one
    reprocess request is sent and the card's busy flag ends [false]. *)
Theorem reprocess_in_unidentified_view :
  forall (image : Image.t) (c : ImageCard.Local) (u : Unidentified.State) (e : Env)
         (result : Reprocess.Res) (msg : string),
    let ok := Reprocess.handleReprocess image (Some Unidentified_onAssign)
                (Fulfilled result) c u e in
    let ko := Reprocess.handleReprocess image (Some Unidentified_onAssign)
                (Rejected msg) c u e in
    snd (fst ok)
    = (if truthy (Reprocess.matched_person result)
       then Unidentified.handleDelete (Image.id image) u else u)
    /\ toasts (world (snd ok))
       = toasts (world e) ++ [ToastSuccess (Reprocess.message result)]
    /\ sent (snd ok) = sent e ++ [ImagesReprocess (Image.id image)]
    /\ calls (world (snd ok)) = calls (world e)
    /\ ImageCard.isReprocessing (fst (fst ok)) = false
    /\ snd (fst ko) = u
    /\ toasts (world (snd ko)) = toasts (world e) ++ [ToastError msg]
    /\ sent (snd ko) = sent e ++ [ImagesReprocess (Image.id image)]
    /\ ImageCard.isReprocessing (fst (fst ko)) = false
    /\ calls (world (snd ko)) = calls (world e)
    /\ Unidentified.images (snd (fst ok))
       = (if truthy (Reprocess.matched_person result)
          then without (Image.id image) (Unidentified.images u)
          else Unidentified.images u)
    /\ Pagination.total (Unidentified.pagination (snd (fst ok)))
       = (if truthy (Reprocess.matched_person result)
          then Pagination.total (Unidentified.pagination u) - 1
          else Pagination.total (Unidentified.pagination u)).
Proof.
  intros image c u e result msg. cbn zeta.
  unfold Reprocess.handleReprocess, Reprocess.handleReprocess_begin,
    Reprocess.handleReprocess_settle, Unidentified_onAssign,
    Unidentified.handleAssign. simpl.
  destruct (truthy (Reprocess.matched_person result)); repeat split.
Qed.

(** ** The upload page *)

Lemma fold_env_toast (ts : list Toast) :
  forall e : Env,
    toasts (world (fold_left (fun acc t => env_toast t acc) ts e))
    = toasts (world e) ++ ts
    /\ sent (fold_left (fun acc t => env_toast t acc) ts e) = sent e
    /\ revoked (fold_left (fun acc t => env_toast t acc) ts e) = revoked e.
Proof.
  induction ts as [|t ts IH]; intro e; simpl.
  - now rewrite app_nil_r.
  - destruct (IH (env_toast t e)) as (E1 & E2 & E3).
    rewrite E1, E2, E3. simpl. now rewrite <- app_assoc.
Qed.

Lemma fold_revoke_preview (fs : list Upload.File) :
  forall e : Env,
    revoked (fold_left (fun acc file => Upload.revoke_preview file acc) fs e)
    = revoked e ++ List.filter (fun url => negb (is_empty url)) (map Upload.preview fs)
    /\ world (fold_left (fun acc file => Upload.revoke_preview file acc) fs e) = world e
    /\ sent (fold_left (fun acc file => Upload.revoke_preview file acc) fs e) = sent e.
Proof.
  induction fs as [|f fs IH]; intro e; simpl.
  - now rewrite app_nil_r.
  - destruct (IH (Upload.revoke_preview f e)) as (E1 & E2 & E3).
    rewrite E1, E2, E3. unfold Upload.revoke_preview.
    destruct (is_empty (Upload.preview f)); simpl; [now repeat split|].
    now rewrite <- app_assoc.
Qed.

Lemma uploaded_spec (rs : list Upload.Result) (f : Upload.File) :
  Upload.uploaded rs f = true <-> In (Upload.name f) (Upload.successfulFilenames rs).
Proof.
  unfold Upload.uploaded. rewrite existsb_exists. split.
  - intros (n & H & E). apply String.eqb_eq in E. now subst.
  - intro H. exists (Upload.name f). split; [exact H | apply String.eqb_refl].
Qed.

Lemma no_files_iff (st : Upload.State) :
  (List.length (Upload.files st) =? 0)%nat = true <-> Upload.files st = [].
Proof.
  rewrite Nat.eqb_eq. destruct (Upload.files st); simpl; split; congruence.
Qed.

(** X15: every call of the upload handler shows exactly one toast, whatever
    happens. With no file selected it sends no request and leaves the page
    state untouched; with files selected it sends exactly one upload request
    naming the selected files in order, and ends with [uploading] false. *)
Theorem upload_shows_one_toast :
  forall (r : Settled (list Upload.Result)) (st : Upload.State) (e : Env),
    let out := Upload.handleUpload r st e in
    List.length (toasts (world (snd out))) = S (List.length (toasts (world e)))
    /\ (Upload.files st = [] ->
        out = (st, env_toast (ToastError "Please select at least one image") e)
        /\ sent (snd out) = sent e)
    /\ (Upload.files st <> [] ->
        sent (snd out) = sent e ++ [ImagesUpload (map Upload.name (Upload.files st))]
        /\ Upload.uploading (fst out) = false)
    /\ revoked (snd out) = revoked e.
Proof.
  intros r st e. cbn zeta.
  unfold Upload.handleUpload, Upload.handleUpload_begin.
  destruct (List.length (Upload.files st) =? 0)%nat eqn:E.
  - apply no_files_iff in E. simpl. rewrite length_app. simpl.
    repeat split; try lia; try contradiction.
  - assert (N : Upload.files st <> []).
    { intro H. apply no_files_iff in H. congruence. }
    destruct r as [rs | msg]; simpl; rewrite length_app; simpl;
      repeat split; try lia; try contradiction.
Qed.

Lemma upload_shows_one_toast_witness :
  Upload.handleUpload (Rejected "down") Upload.initial empty_env
  = (Upload.initial, env_toast (ToastError "Please select at least one image") empty_env)
  /\ sent (snd (Upload.handleUpload (Rejected "down") three_photos empty_env))
     = [ImagesUpload ["a.jpg"; "b.jpg"; "c.jpg"]%string].
Proof.
  split.
  - exact (proj1 (proj1 (proj2 (upload_shows_one_toast (Rejected "down")
                                  Upload.initial empty_env)) eq_refl)).
  - assert (N : Upload.files three_photos <> []) by (simpl; discriminate).
    exact (proj1 (proj1 (proj2 (proj2 (upload_shows_one_toast (Rejected "down")
                                         three_photos empty_env))) N)).
Defined.

(** X16: after a fulfilled upload the selection holds exactly the files whose
    name is not the filename of a successful result, in their order: files
    whose upload failed or was not reported stay selected, and every file
    sharing its name with a successful result is dropped. The results shown
    are the response's. *)
Theorem upload_keeps_files_not_reported_successful :
  forall (rs : list Upload.Result) (st : Upload.State) (e : Env),
    Upload.files st <> [] ->
    let out := Upload.handleUpload (Fulfilled rs) st e in
    Upload.files (fst out)
    = List.filter (fun f => negb (Upload.uploaded rs f)) (Upload.files st)
    /\ (forall f, In f (Upload.files (fst out)) <->
                  In f (Upload.files st)
                  /\ ~ In (Upload.name f) (Upload.successfulFilenames rs))
    /\ (forall r, In r rs -> Upload.success r = true ->
                  forall f, In f (Upload.files (fst out)) ->
                            Upload.name f <> Upload.filename r)
    /\ Upload.results (fst out) = rs.
Proof.
  intros rs st e N. cbn zeta.
  unfold Upload.handleUpload, Upload.handleUpload_begin.
  destruct (List.length (Upload.files st) =? 0)%nat eqn:E.
  { apply no_files_iff in E. contradiction. }
  simpl.
  assert (M : forall f, In f (List.filter (fun f => negb (Upload.uploaded rs f))
                                           (Upload.files st)) <->
                        In f (Upload.files st)
                        /\ ~ In (Upload.name f) (Upload.successfulFilenames rs)).
  { intro f. rewrite filter_In, negb_true_iff, <- uploaded_spec.
    destruct (Upload.uploaded rs f); intuition congruence. }
  split; [reflexivity|]. split; [exact M|]. split; [|reflexivity].
  intros r Hr Hs f Hf E'. apply M in Hf. destruct Hf as [_ Hf]. apply Hf.
  unfold Upload.successfulFilenames. rewrite in_map_iff. exists r.
  split; [now symmetry|]. apply filter_In. now split.
Qed.

Lemma upload_keeps_files_not_reported_successful_witness :
  map Upload.name
      (Upload.files
         (fst (Upload.handleUpload
                 (Fulfilled [Upload.mkResult "a.jpg" true (Some 2) (JNum 1) EmptyString;
                             Upload.mkResult "b.jpg" false None JNull "unreadable"])
                 three_photos empty_env)))
  = ["b.jpg"; "c.jpg"]%string.
Proof.
  assert (N : Upload.files three_photos <> []) by (simpl; discriminate).
  rewrite (proj1 (upload_keeps_files_not_reported_successful
                    [Upload.mkResult "a.jpg" true (Some 2) (JNum 1) EmptyString;
                     Upload.mkResult "b.jpg" false None JNull "unreadable"]
                    three_photos empty_env N)).
  reflexivity.
Defined.

(** X17: the toast of a fulfilled upload is the success toast exactly when
    the number of successful results equals the number of files selected at
    the click, whatever the response lists; when the response reports one
    result per selected file, that is exactly when every result succeeded. *)
Theorem upload_success_toast_iff_all_succeeded :
  forall (rs : list Upload.Result) (st : Upload.State) (e : Env),
    Upload.files st <> [] ->
    let out := Upload.handleUpload (Fulfilled rs) st e in
    toasts (world (snd out))
    = toasts (world e) ++ [Upload.summary (List.length (Upload.files st)) rs]
    /\ (is_success_toast (Upload.summary (List.length (Upload.files st)) rs) = true
        <-> Upload.successCount rs = List.length (Upload.files st))
    /\ (List.length rs = List.length (Upload.files st) ->
        (is_success_toast (Upload.summary (List.length (Upload.files st)) rs) = true
         <-> forall r, In r rs -> Upload.success r = true)).
Proof.
  intros rs st e N. cbn zeta.
  unfold Upload.handleUpload, Upload.handleUpload_begin.
  destruct (List.length (Upload.files st) =? 0)%nat eqn:E.
  { apply no_files_iff in E. contradiction. }
  simpl. split; [reflexivity|].
  assert (S : is_success_toast (Upload.summary (List.length (Upload.files st)) rs) = true
              <-> Upload.successCount rs = List.length (Upload.files st)).
  { unfold Upload.summary.
    destruct (Upload.successCount rs =? List.length (Upload.files st))%nat eqn:C; simpl.
    - apply Nat.eqb_eq in C. tauto.
    - apply Nat.eqb_neq in C. split; [discriminate | contradiction]. }
  split; [exact S|].
  intro L. rewrite S. unfold Upload.successCount. rewrite <- L.
  apply filter_length_all.
Qed.

Lemma upload_success_toast_iff_all_succeeded_witness :
  (is_success_toast
     (Upload.summary (List.length (Upload.files three_photos))
        [Upload.mkResult "a.jpg" true (Some 2) (JNum 1) EmptyString;
         Upload.mkResult "c.jpg" true (Some 0) JNull EmptyString]) = true
   <-> Upload.successCount
         [Upload.mkResult "a.jpg" true (Some 2) (JNum 1) EmptyString;
          Upload.mkResult "c.jpg" true (Some 0) JNull EmptyString]
       = List.length (Upload.files three_photos))
  /\ (is_success_toast
        (Upload.summary (List.length (Upload.files three_photos))
           [Upload.mkResult "a.jpg" true (Some 2) (JNum 1) EmptyString;
            Upload.mkResult "b.jpg" false None JNull "unreadable";
            Upload.mkResult "c.jpg" true (Some 0) JNull EmptyString]) = true
      <-> forall r,
            In r [Upload.mkResult "a.jpg" true (Some 2) (JNum 1) EmptyString;
                  Upload.mkResult "b.jpg" false None JNull "unreadable";
                  Upload.mkResult "c.jpg" true (Some 0) JNull EmptyString] ->
            Upload.success r = true).
Proof.
  assert (N : Upload.files three_photos <> []) by (simpl; discriminate).
  split.
  - exact (proj1 (proj2 (upload_success_toast_iff_all_succeeded
                           [Upload.mkResult "a.jpg" true (Some 2) (JNum 1) EmptyString;
                            Upload.mkResult "c.jpg" true (Some 0) JNull EmptyString]
                           three_photos empty_env N))).
  - exact (proj2 (proj2 (upload_success_toast_iff_all_succeeded
                           [Upload.mkResult "a.jpg" true (Some 2) (JNum 1) EmptyString;
                            Upload.mkResult "b.jpg" false None JNull "unreadable";
                            Upload.mkResult "c.jpg" true (Some 0) JNull EmptyString]
                           three_photos empty_env N)) eq_refl).
Defined.

(** X18: a rejected upload keeps every selected file, in order, for a retry;
    the results of the previous upload have already been cleared and stay
    empty; the one toast is an error toast whose text is the rejection's
    message, or "Upload failed" when that message is empty, so it is never
    empty. *)
Theorem rejected_upload_keeps_selection :
  forall (msg : string) (st : Upload.State) (e : Env),
    Upload.files st <> [] ->
    let out := Upload.handleUpload (Rejected msg) st e in
    Upload.files (fst out) = Upload.files st
    /\ Upload.results (fst out) = []
    /\ Upload.uploading (fst out) = false
    /\ (msg = EmptyString ->
        toasts (world (snd out)) = toasts (world e) ++ [ToastError "Upload failed"])
    /\ (msg <> EmptyString ->
        toasts (world (snd out)) = toasts (world e) ++ [ToastError msg])
    /\ (exists text, toasts (world (snd out)) = toasts (world e) ++ [ToastError text]
                     /\ text <> EmptyString)
    /\ sent (snd out)
       = sent e ++ [ImagesUpload (map Upload.name (Upload.files st))].
Proof.
  intros msg st e N. cbn zeta.
  unfold Upload.handleUpload, Upload.handleUpload_begin.
  destruct (List.length (Upload.files st) =? 0)%nat eqn:E.
  { apply no_files_iff in E. contradiction. }
  simpl. unfold is_empty.
  split; [reflexivity|]. split; [reflexivity|]. split; [reflexivity|].
  destruct (String.eqb msg EmptyString) eqn:M.
  - apply String.eqb_eq in M.
    split; [reflexivity|]. split; [contradiction|].
    split; [|reflexivity].
    exists "Upload failed"%string. split; [reflexivity | discriminate].
  - apply String.eqb_neq in M.
    split; [contradiction|]. split; [reflexivity|].
    split; [|reflexivity].
    exists msg. split; [reflexivity | exact M].
Qed.

Lemma rejected_upload_keeps_selection_witness :
  Upload.files (fst (Upload.handleUpload (Rejected EmptyString) three_photos empty_env))
  = Upload.files three_photos
  /\ toasts (world (snd (Upload.handleUpload (Rejected EmptyString) three_photos
                           empty_env)))
     = [ToastError "Upload failed"]
  /\ toasts (world (snd (Upload.handleUpload (Rejected "Network Error") three_photos
                           empty_env)))
     = [ToastError "Network Error"].
Proof.
  assert (N : Upload.files three_photos <> []) by (simpl; discriminate).
  assert (M : "Network Error"%string <> EmptyString) by discriminate.
  destruct (rejected_upload_keeps_selection EmptyString three_photos empty_env N)
    as (E1 & _ & _ & E2 & _).
  destruct (rejected_upload_keeps_selection "Network Error" three_photos empty_env N)
    as (_ & _ & _ & _ & E3 & _).
  exact (conj E1 (conj (E2 eq_refl) (E3 M))).
Defined.

Lemma rejection_toasts_length (r : Upload.Rejection) :
  List.length (Upload.rejection_toasts r)
  = List.length (List.filter known_code (Upload.errors r)).
Proof.
  unfold Upload.rejection_toasts, known_code.
  induction (Upload.errors r) as [|c cs IH]; simpl; [reflexivity|].
  destruct (String.eqb c "file-too-large"); simpl; [now f_equal|].
  destruct (String.eqb c "file-invalid-type"); simpl; [now f_equal | exact IH].
Qed.

(** X19: a drop appends the accepted files after the held ones, keeping both
    orders, and never removes a held file; it sends no request and revokes
    no URL. It shows the toasts of the rejected files in order, one error
    toast for each error whose code is "file-too-large" or
    "file-invalid-type" and none for any other code. *)
Theorem drop_appends_and_reports_known_rejections :
  forall (acceptedFiles : list Upload.File) (rejectedFiles : list Upload.Rejection)
         (st : Upload.State) (e : Env),
    let out := Upload.onDrop acceptedFiles rejectedFiles st e in
    Upload.files (fst out) = Upload.files st ++ acceptedFiles
    /\ toasts (world (snd out))
       = toasts (world e) ++ flat_map Upload.rejection_toasts rejectedFiles
    /\ List.length (flat_map Upload.rejection_toasts rejectedFiles)
       = List.length (List.filter known_code (flat_map Upload.errors rejectedFiles))
    /\ Forall (fun t => is_success_toast t = false)
              (flat_map Upload.rejection_toasts rejectedFiles)
    /\ sent (snd out) = sent e
    /\ revoked (snd out) = revoked e
    /\ Upload.results (fst out) = Upload.results st.
Proof.
  intros acc rej st e. cbn zeta. unfold Upload.onDrop. simpl.
  destruct (fold_env_toast (flat_map Upload.rejection_toasts rej) e) as (E1 & E2 & E3).
  split; [reflexivity|]. split; [exact E1|].
  split.
  { clear E1 E2 E3. induction rej as [|r rej IH]; simpl; [reflexivity|].
    rewrite length_app, filter_app, length_app, rejection_toasts_length. now f_equal. }
  split.
  { apply Forall_flat_map. apply Forall_forall. intros r _.
    unfold Upload.rejection_toasts. apply Forall_flat_map. apply Forall_forall.
    intros c _. destruct (String.eqb c "file-too-large"); [now repeat constructor|].
    destruct (String.eqb c "file-invalid-type"); now repeat constructor. }
  now repeat split.
Qed.

Lemma find_filter_none (fileId : string) (fs : list Upload.File) :
  find (fun f => String.eqb (Upload.id f) fileId)
       (List.filter (fun f => negb (String.eqb (Upload.id f) fileId)) fs) = None.
Proof.
  induction fs as [|f fs IH]; simpl; [reflexivity|].
  destruct (String.eqb (Upload.id f) fileId) eqn:E; simpl; [exact IH|].
  now rewrite E.
Qed.

(** X20: removing a file from the selection drops every held file with that
    id and keeps the others in order; it revokes the preview URL of the
    first held file with that id and no other URL, and nothing when no held
    file has the id. Removing the same id again changes nothing and revokes
    nothing. Clearing the selection empties files and results and revokes
    the preview URL of every held file, in order. *)
Theorem selection_removal_revokes_previews :
  forall (fileId : string) (st : Upload.State) (e : Env),
    let out := Upload.removeFile fileId st e in
    let cleared := Upload.clearAll st e in
    (forall f, In f (Upload.files (fst out)) <->
               In f (Upload.files st) /\ Upload.id f <> fileId)
    /\ revoked (snd out)
       = revoked e ++
         match find (fun f => String.eqb (Upload.id f) fileId) (Upload.files st) with
         | Some file => if is_empty (Upload.preview file) then []
                        else [Upload.preview file]
         | None => []
         end
    /\ Upload.removeFile fileId (fst out) (snd out) = out
    /\ Upload.files (fst cleared) = []
    /\ Upload.results (fst cleared) = []
    /\ revoked (snd cleared)
       = revoked e ++ List.filter (fun url => negb (is_empty url))
                                  (map Upload.preview (Upload.files st))
    /\ world (snd out) = world e
    /\ world (snd cleared) = world e
    /\ sent (snd out) = sent e
    /\ sent (snd cleared) = sent e.
Proof.
  intros fileId st e. cbn zeta. unfold Upload.removeFile, Upload.clearAll.
  destruct (fold_revoke_preview (Upload.files st) e) as (R1 & R2 & R3).
  simpl.
  split.
  { intro f. rewrite filter_In, negb_true_iff.
    destruct (String.eqb (Upload.id f) fileId) eqn:E.
    - apply String.eqb_eq in E. intuition congruence.
    - apply String.eqb_neq in E. tauto. }
  split.
  { destruct (find _ (Upload.files st)) as [file|]; [|now rewrite app_nil_r].
    unfold Upload.revoke_preview.
    destruct (is_empty (Upload.preview file)); [now rewrite app_nil_r | reflexivity]. }
  split.
  { rewrite find_filter_none. f_equal. unfold Upload.setFiles. simpl.
    now rewrite filter_twice. }
  split; [reflexivity|]. split; [reflexivity|]. split; [exact R1|].
  split.
  { destruct (find _ (Upload.files st)) as [file|]; [|reflexivity].
    unfold Upload.revoke_preview. now destruct (is_empty (Upload.preview file)). }
  split; [exact R2|]. split; [|exact R3].
  destruct (find _ (Upload.files st)) as [file|]; [|reflexivity].
  unfold Upload.revoke_preview. now destruct (is_empty (Upload.preview file)).
Qed.

(** ** The navigation bar *)

Lemma prefix_head3 (a b c : Ascii.ascii) (s t : string) :
  String.prefix (String a (String b (String c s))) t = true ->
  exists t', t = String a (String b (String c t')).
Proof.
  destruct t as [|a' t]; simpl; [discriminate|].
  destruct (Ascii.ascii_dec a a') as [<-|]; [|discriminate].
  destruct t as [|b' t]; simpl; [discriminate|].
  destruct (Ascii.ascii_dec b b') as [<-|]; [|discriminate].
  destruct t as [|c' t]; simpl; [discriminate|].
  destruct (Ascii.ascii_dec c c') as [<-|]; [|discriminate].
  intros _. now exists t.
Qed.

Lemma active_unfolded (pathname : string) :
  Layout.active pathname
  = (if String.eqb pathname "/" then [("Dashboard", "/")] else [])%string
    ++ (if String.prefix "/images" pathname then [("All Images", "/images")] else [])%string
    ++ (if String.prefix "/people" pathname then [("People", "/people")] else [])%string
    ++ (if String.prefix "/unidentified" pathname
        then [("Unidentified", "/unidentified")] else [])%string
    ++ (if String.prefix "/upload" pathname then [("Upload", "/upload")] else [])%string.
Proof.
  unfold Layout.active, Layout.navigation, Layout.isActive.
  cbn [List.filter snd].
  change (String.eqb "/" "/") with true.
  change (String.eqb "/images" "/") with false.
  change (String.eqb "/people" "/") with false.
  change (String.eqb "/unidentified" "/") with false.
  change (String.eqb "/upload" "/") with false.
  cbv iota.
  destruct (String.eqb pathname "/"), (String.prefix "/images" pathname),
    (String.prefix "/people" pathname), (String.prefix "/unidentified" pathname),
    (String.prefix "/upload" pathname); reflexivity.
Qed.

(** X22: at any location at most one navigation entry is drawn active. The
    dashboard entry is active at the path "/" only; each other entry is
    active, alone, at every path that starts with its link, so the people
    entry stays active on a person's page. *)
Theorem at_most_one_navigation_entry_is_active :
  forall pathname : string,
    (List.length (Layout.active pathname) <= 1)%nat
    /\ (Layout.isActive pathname "/" = true <-> pathname = "/"%string)
    /\ (forall (name href rest : string),
          In (name, href) Layout.navigation -> href <> "/"%string ->
          Layout.active (String.append href rest) = [(name, href)]).
Proof.
  intro pathname. split; [|split].
  - rewrite active_unfolded.
    destruct (String.eqb pathname "/") eqn:E0;
      destruct (String.prefix "/images" pathname) eqn:E1;
      destruct (String.prefix "/people" pathname) eqn:E2;
      destruct (String.prefix "/unidentified" pathname) eqn:E3;
      destruct (String.prefix "/upload" pathname) eqn:E4;
      try (simpl; lia); exfalso;
      repeat match goal with
        | H : String.eqb _ _ = true |- _ => apply String.eqb_eq in H
        | H : String.prefix _ _ = true |- _ =>
            apply prefix_head3 in H; destruct H as [? H]
        end;
      congruence.
  - unfold Layout.isActive. change (String.eqb "/" "/") with true. cbv iota.
    apply String.eqb_eq.
  - intros name href rest H N. simpl in H.
    destruct H as [H | [H | [H | [H | [H | []]]]]];
      injection H as <- <-; try contradiction;
      rewrite active_unfolded; destruct rest; reflexivity.
Qed.

Lemma at_most_one_navigation_entry_is_active_witness :
  Layout.active "/people/4" = [("People", "/people")]%string.
Proof.
  assert (I : In ("People", "/people")%string Layout.navigation)
    by (simpl; tauto).
  assert (N : "/people"%string <> "/"%string) by discriminate.
  exact (proj2 (proj2 (at_most_one_navigation_entry_is_active "/people/4"))
               "People"%string "/people"%string "/4"%string I N).
Defined.

(** ** The person page keeps its two counts in step *)

Lemma PersonDetail_apply_counts (id : JsVal) (op : DetailOp)
    (st : PersonDetail.State) (p : Person.t) :
  PersonDetail.person st = Some p ->
  exists st',
    PersonDetail_apply id op st = Some st'
    /\ PersonDetail.person st'
       = Some (Person.mk (Person.id p) (Person.name p)
                 (Person.image_count p - (if removes id op then 1 else 0)))
    /\ Pagination.total (PersonDetail.pagination st')
       = Pagination.total (PersonDetail.pagination st)
         - (if removes id op then 1 else 0)
    /\ Pagination.pages (PersonDetail.pagination st')
       = Pagination.pages (PersonDetail.pagination st)
    /\ Pagination.page (PersonDetail.pagination st')
       = Pagination.page (PersonDetail.pagination st).
Proof.
  intro Hp. destruct op as [imageId | imageId personId]; simpl.
  - unfold PersonDetail.handleImageDelete, PersonDetail.decrement_image_count.
    simpl. rewrite Hp. eexists. split; [reflexivity|]. now repeat split.
  - unfold PersonDetail.handleImageAssign.
    destruct (strict_neq personId id).
    + unfold PersonDetail.decrement_image_count. simpl. rewrite Hp.
      eexists. split; [reflexivity|]. now repeat split.
    + exists st. split; [reflexivity|]. rewrite Hp. destruct p as [i n c]. simpl.
      repeat split; try lia. do 2 f_equal. lia.
Qed.

(** X23: on the person page with a person held, every sequence of card
    callbacks (deletions and reassignments) returns: none of them throws.
    Each callback that removes an image lowers the person's [image_count]
    and the pagination [total] by one together, so their difference is the
    same after the sequence as before, both having dropped by the number of
    removing callbacks; the person's id and name, the page number and
    [pages] are unchanged. *)
Theorem person_page_counts_move_together :
  forall (id : JsVal) (ops : list DetailOp) (st : PersonDetail.State) (p : Person.t),
    PersonDetail.person st = Some p ->
    exists (st' : PersonDetail.State) (p' : Person.t),
      PersonDetail_run id ops st = Some st'
      /\ PersonDetail.person st' = Some p'
      /\ Person.id p' = Person.id p
      /\ Person.name p' = Person.name p
      /\ Person.image_count p'
         = Person.image_count p - Z.of_nat (List.length (List.filter (removes id) ops))
      /\ Pagination.total (PersonDetail.pagination st')
         = Pagination.total (PersonDetail.pagination st)
           - Z.of_nat (List.length (List.filter (removes id) ops))
      /\ Person.image_count p' - Pagination.total (PersonDetail.pagination st')
         = Person.image_count p - Pagination.total (PersonDetail.pagination st)
      /\ Pagination.pages (PersonDetail.pagination st')
         = Pagination.pages (PersonDetail.pagination st)
      /\ Pagination.page (PersonDetail.pagination st')
         = Pagination.page (PersonDetail.pagination st).
Proof.
  intros id ops. induction ops as [|op ops IH]; intros st p Hp.
  - exists st, p. simpl. repeat split; try exact Hp; lia.
  - destruct (PersonDetail_apply_counts id op st p Hp)
      as (st1 & E1 & P1 & T1 & G1 & N1).
    destruct (IH st1 _ P1) as (st' & p' & E & P & I & N & C & T & D & G & Pg).
    exists st', p'. simpl PersonDetail_run. rewrite E1.
    split; [exact E|]. split; [exact P|].
    simpl in I, N, C, D.
    split; [exact I|]. split; [exact N|].
    simpl List.filter. destruct (removes id op); cbn [List.length];
      repeat split; try congruence; lia.
Qed.

Lemma person_page_counts_move_together_witness :
  exists st' p',
    PersonDetail_run (JStr "4")
      [OpDelete (JNum 1); OpAssign (JNum 2) (JStr "4"); OpAssign (JNum 3) JNull]
      detail_of_P = Some st'
    /\ PersonDetail.person st' = Some p'
    /\ Person.image_count p' = 8
    /\ Pagination.total (PersonDetail.pagination st') = 8.
Proof.
  destruct (person_page_counts_move_together (JStr "4")
              [OpDelete (JNum 1); OpAssign (JNum 2) (JStr "4"); OpAssign (JNum 3) JNull]
              detail_of_P person_P eq_refl)
    as (st' & p' & E & P & _ & _ & C & T & _).
  exists st', p'. split; [exact E|]. split; [exact P|].
  split; [rewrite C | rewrite T]; reflexivity.
Defined.

(** X24: on the person page a reassignment to an owner that is strictly
    equal to the route's [id] changes nothing. A reassignment to [null]
    (unassign), or to a numeric owner while the route's [id] is a string,
    is never strictly equal to it and removes the image exactly as a
    deletion does, whatever the number is; a deletion, with a person held,
    gives the held state with the images without that id, [total] lower by
    one and the person's [image_count] lower by one, and throws with no
    person held. *)
Theorem person_page_reassign_cases :
  forall (imageId : JsVal) (route : string) (n : Z) (st : PersonDetail.State),
    PersonDetail.handleImageAssign (JStr route) imageId (JStr route) st = Some st
    /\ PersonDetail.handleImageAssign (JStr route) imageId JNull st
       = PersonDetail.handleImageDelete imageId st
    /\ PersonDetail.handleImageAssign (JStr route) imageId (JNum n) st
       = PersonDetail.handleImageDelete imageId st
    /\ PersonDetail.handleImageDelete imageId st
       = match PersonDetail.person st with
         | Some p =>
             Some (PersonDetail.mk
                     (Some (Person.mk (Person.id p) (Person.name p)
                              (Person.image_count p - 1)))
                     (without imageId (PersonDetail.images st))
                     (PersonDetail.allPeople st)
                     (PersonDetail.loading st)
                     (Pagination.with_total
                        (Pagination.total (PersonDetail.pagination st) - 1)
                        (PersonDetail.pagination st)))
         | None => None
         end.
Proof.
  intros imageId route n st.
  unfold PersonDetail.handleImageAssign. simpl.
  unfold strict_neq. simpl. rewrite String.eqb_refl. simpl.
  split; [reflexivity|]. split; [reflexivity|]. split; [reflexivity|].
  unfold PersonDetail.handleImageDelete, PersonDetail.decrement_image_count.
  simpl. now destruct (PersonDetail.person st).
Qed.

(** ** Clicking the filter that is already selected *)

(** X25: in the all-images view, clicking the filter button that is already
    selected issues no load and changes nothing when the view is on page 1;
    on any other page it goes back to page 1 with exactly one load for that
    page and the same filter. *)
Theorem reclick_of_selected_filter :
  forall (st : AllImages.State) (w : World),
    let next := AllImages.onFilterClick (AllImages.filter st) st in
    (Pagination.page (AllImages.pagination st) = 1 ->
     AllImages.useEffect st next w = (st, w))
    /\ (Pagination.page (AllImages.pagination st) <> 1 ->
        Pagination.page (AllImages.pagination (fst (AllImages.useEffect st next w))) = 1
        /\ AllImages.images (fst (AllImages.useEffect st next w)) = AllImages.images st
        /\ calls (snd (AllImages.useEffect st next w))
           = calls w ++
             [ImagesGetAll (mkParams (Some 1)
                              (Some (Pagination.per_page (AllImages.pagination st)))
                              (Some (AllImages.filter st)) None);
              PeopleGetAll no_params]).
Proof.
  intros st w. cbn zeta.
  assert (F : Filter_eqb (AllImages.filter st) (AllImages.filter st) = true)
    by now apply Filter_eqb_spec.
  unfold AllImages.useEffect, AllImages.deps_changed. simpl. rewrite F. simpl.
  split; intro H.
  - rewrite H. simpl. destruct st as [im pe lo [pg pp tt ps] fi]. simpl in *.
    now subst pg.
  - apply Z.eqb_neq in H. rewrite H. simpl. now repeat split.
Qed.

Lemma reclick_of_selected_filter_witness :
  AllImages.useEffect two_images
    (AllImages.onFilterClick (AllImages.filter two_images) two_images) empty_world
  = (two_images, empty_world)
  /\ calls (snd (AllImages.useEffect
                   (AllImages.setPagination (Pagination.with_page 3) two_images)
                   (AllImages.onFilterClick
                      (AllImages.filter
                         (AllImages.setPagination (Pagination.with_page 3) two_images))
                      (AllImages.setPagination (Pagination.with_page 3) two_images))
                   empty_world))
     = [ImagesGetAll (mkParams (Some 1) (Some 30) (Some FAll) None);
        PeopleGetAll no_params].
Proof.
  split.
  - exact (proj1 (reclick_of_selected_filter two_images empty_world) eq_refl).
  - assert (N : Pagination.page
                  (AllImages.pagination
                     (AllImages.setPagination (Pagination.with_page 3) two_images))
                <> 1) by (simpl; lia).
    exact (proj2 (proj2 (proj2 (reclick_of_selected_filter
                                  (AllImages.setPagination (Pagination.with_page 3)
                                     two_images) empty_world) N))).
Defined.
